(** * doc_summarizer: a shallow embedding of the document pipeline

    The development follows [utilities/vector_db.py] (class [VectorDB]) and
    the summary-button handler of [main.py].  Library code the repository
    calls (hashlib, base64, json, the vector-store client) is modelled by
    the small executable definitions of the first half of the file; the
    repository's own functions keep their names. *)

From Stdlib Require Import ZArith NArith Ascii String List Lia Bool.
From Stdlib Require Import Init.Byte.
From stdpp Require Import gmap strings list fin_maps pretty.
Import ListNotations.

(* ===================================================================== *)
(** * Python values the code passes around                                *)
(* ===================================================================== *)

(** [str] objects that are inspected character by character are kept as
    lists of characters; names used as dictionary keys are [string]s. *)

Module PyStr.

Definition eqc (a b : ascii) : bool := Ascii.eqb a b.

(** [s.rstrip(c)] for a one-character argument. *)
Fixpoint rstrip (c : ascii) (s : list ascii) : list ascii :=
  match s with
  | [] => []
  | a :: s' =>
      match rstrip c s' with
      | [] => if eqc a c then [] else [a]
      | r => a :: r
      end
  end.

(** [s.replace(x, y)] for one-character [x] and [y]. *)
Definition replace (x y : ascii) (s : list ascii) : list ascii :=
  map (fun a => if eqc a x then y else a) s.

Definition is_upper (a : ascii) : bool :=
  let n := nat_of_ascii a in (65 <=? n)%nat && (n <=? 90)%nat.

Definition lower_char (a : ascii) : ascii :=
  if is_upper a then ascii_of_nat (nat_of_ascii a + 32) else a.

(** [s.lower()]; every string met here is ASCII. *)
Definition lower (s : list ascii) : list ascii := map lower_char s.

(** [bytes.translate(table)] restricted to the two entries the url-safe
    table changes. *)
Definition translate_urlsafe (s : list ascii) : list ascii :=
  map (fun a => if eqc a "+" then "-"%char
                else if eqc a "/" then "_"%char else a) s.

End PyStr.

(* ===================================================================== *)
(** * hashlib.sha256                                                       *)
(* ===================================================================== *)

Module Sha256.
Local Open Scope Z_scope.

Definition w32 (x : Z) : Z := x mod 4294967296.
Definition add32 (x y : Z) : Z := w32 (x + y).
Definition not32 (x : Z) : Z := Z.lxor x 4294967295.
Definition rotr (n x : Z) : Z :=
  Z.lor (Z.shiftr x n) (w32 (Z.shiftl x (32 - n))).

Definition choose (x y z : Z) : Z :=
  Z.lxor (Z.land x y) (Z.land (not32 x) z).
Definition majority (x y z : Z) : Z :=
  Z.lxor (Z.lxor (Z.land x y) (Z.land x z)) (Z.land y z).
Definition big_s0 (x : Z) : Z :=
  Z.lxor (Z.lxor (rotr 2 x) (rotr 13 x)) (rotr 22 x).
Definition big_s1 (x : Z) : Z :=
  Z.lxor (Z.lxor (rotr 6 x) (rotr 11 x)) (rotr 25 x).
Definition small_s0 (x : Z) : Z :=
  Z.lxor (Z.lxor (rotr 7 x) (rotr 18 x)) (Z.shiftr x 3).
Definition small_s1 (x : Z) : Z :=
  Z.lxor (Z.lxor (rotr 17 x) (rotr 19 x)) (Z.shiftr x 10).

Definition round_constants : list Z :=
  [ 1116352408; 1899447441; 3049323471; 3921009573;
    961987163; 1508970993; 2453635748; 2870763221;
    3624381080; 310598401; 607225278; 1426881987;
    1925078388; 2162078206; 2614888103; 3248222580;
    3835390401; 4022224774; 264347078; 604807628;
    770255983; 1249150122; 1555081692; 1996064986;
    2554220882; 2821834349; 2952996808; 3210313671;
    3336571891; 3584528711; 113926993; 338241895;
    666307205; 773529912; 1294757372; 1396182291;
    1695183700; 1986661051; 2177026350; 2456956037;
    2730485921; 2820302411; 3259730800; 3345764771;
    3516065817; 3600352804; 4094571909; 275423344;
    430227734; 506948616; 659060556; 883997877;
    958139571; 1322822218; 1537002063; 1747873779;
    1955562222; 2024104815; 2227730452; 2361852424;
    2428436474; 2756734187; 3204031479; 3329325298 ].

Record regs := Regs {
  ra : Z; rb : Z; rc : Z; rd : Z; re : Z; rf : Z; rg : Z; rh : Z }.

Definition initial_regs : regs :=
  Regs 1779033703 3144134277 1013904242 2773480762
       1359893119 2600822924 528734635 1541459225.

Definition byte_val (b : byte) : Z := Z.of_N (Byte.to_N b).

Definition byte_of_Z (z : Z) : byte :=
  match Byte.of_N (Z.to_N (z mod 256)) with
  | Some b => b
  | None => x00
  end.

(** Big-endian encodings of a 32-bit word and of the 64-bit bit count. *)
Definition be32 (x : Z) : list byte :=
  map (fun k => byte_of_Z (Z.shiftr x k)) [24; 16; 8; 0].
Definition be64 (x : Z) : list byte :=
  map (fun k => byte_of_Z (Z.shiftr x k)) [56; 48; 40; 32; 24; 16; 8; 0].

(** Message padding: 0x80, zero bytes up to 56 modulo 64, bit length. *)
Definition pad (msg : list byte) : list byte :=
  let len := Z.of_nat (List.length msg) in
  msg ++ [x80] ++ repeat x00 (Z.to_nat ((55 - len) mod 64)) ++ be64 (8 * len).

Fixpoint words_of (fuel : nat) (bs : list byte) : list Z :=
  match fuel, bs with
  | S k, b0 :: b1 :: b2 :: b3 :: rest =>
      (Z.shiftl (byte_val b0) 24 + Z.shiftl (byte_val b1) 16
       + Z.shiftl (byte_val b2) 8 + byte_val b3) :: words_of k rest
  | _, _ => []
  end.

(** The 64-word message schedule of one block, built front to back. *)
Fixpoint schedule (n : nat) (ws : list Z) : list Z :=
  match n with
  | O => ws
  | S k =>
      let t := List.length ws in
      let at_back (i : nat) := nth (t - i)%nat ws 0 in
      schedule k
        (ws ++ [add32 (add32 (small_s1 (at_back 2%nat)) (at_back 7%nat))
                      (add32 (small_s0 (at_back 15%nat)) (at_back 16%nat))])
  end.

Definition round (s : regs) (kw : Z * Z) : regs :=
  let t1 := add32 (add32 (add32 (rh s) (big_s1 (re s)))
                         (add32 (choose (re s) (rf s) (rg s)) (fst kw)))
                  (snd kw) in
  let t2 := add32 (big_s0 (ra s)) (majority (ra s) (rb s) (rc s)) in
  Regs (add32 t1 t2) (ra s) (rb s) (rc s) (add32 (rd s) t1) (re s) (rf s) (rg s).

Definition compress (h : regs) (block : list Z) : regs :=
  let s := fold_left round (combine round_constants (schedule 48 block)) h in
  Regs (add32 (ra h) (ra s)) (add32 (rb h) (rb s)) (add32 (rc h) (rc s))
       (add32 (rd h) (rd s)) (add32 (re h) (re s)) (add32 (rf h) (rf s))
       (add32 (rg h) (rg s)) (add32 (rh h) (rh s)).

Fixpoint blocks_of (fuel : nat) (ws : list Z) : list (list Z) :=
  match fuel, ws with
  | S k, _ :: _ => firstn 16 ws :: blocks_of k (skipn 16 ws)
  | _, _ => []
  end.

Definition digest_bytes (h : regs) : list byte :=
  be32 (ra h) ++ be32 (rb h) ++ be32 (rc h) ++ be32 (rd h)
  ++ be32 (re h) ++ be32 (rf h) ++ be32 (rg h) ++ be32 (rh h).

(** [hashlib.sha256(data).digest()] *)
Definition digest (msg : list byte) : list byte :=
  let padded := pad msg in
  let ws := words_of (List.length padded) padded in
  digest_bytes (fold_left compress (blocks_of (List.length ws) ws) initial_regs).

End Sha256.

(* ===================================================================== *)
(** * base64.urlsafe_b64encode                                             *)
(* ===================================================================== *)

Module Base64.
Local Open Scope N_scope.

Definition table : list ascii :=
  list_ascii_of_string
    "ABCDEFGHIJKLMNOPQRSTUVWXYZabcdefghijklmnopqrstuvwxyz0123456789+/".

Definition pad_char : ascii := "="%char.

Definition table_char (i : N) : ascii := nth (N.to_nat i) table pad_char.

(** Six bits at a time, most significant first; one or two leftover
    bytes give two or three characters and the padding. *)
Fixpoint b64encode (bs : list byte) : list ascii :=
  match bs with
  | [] => []
  | [a] =>
      let x := Byte.to_N a in
      [ table_char (N.land (N.shiftr x 2) 63);
        table_char (N.shiftl (N.land x 3) 4);
        pad_char; pad_char ]
  | [a; b] =>
      let x := N.lor (N.shiftl (Byte.to_N a) 8) (Byte.to_N b) in
      [ table_char (N.land (N.shiftr x 10) 63);
        table_char (N.land (N.shiftr x 4) 63);
        table_char (N.shiftl (N.land x 15) 2);
        pad_char ]
  | a :: b :: c :: rest =>
      let x := N.lor (N.shiftl (N.lor (N.shiftl (Byte.to_N a) 8) (Byte.to_N b)) 8)
                     (Byte.to_N c) in
      table_char (N.land (N.shiftr x 18) 63)
      :: table_char (N.land (N.shiftr x 12) 63)
      :: table_char (N.land (N.shiftr x 6) 63)
      :: table_char (N.land x 63)
      :: b64encode rest
  end.

Definition urlsafe_b64encode (bs : list byte) : list ascii :=
  PyStr.translate_urlsafe (b64encode bs).

End Base64.

(* ===================================================================== *)
(** * The uploaded file and [VectorDB.get_hash]                            *)
(* ===================================================================== *)

(** A Streamlit [UploadedFile] is a [BytesIO]: a buffer and a read
    position.  [read()] returns what lies after the position and moves it
    to the end; [getbuffer()] ignores the position. *)
Record UploadedFile := mkUploadedFile {
  file_buffer : list byte;
  file_pos : nat }.

Definition fresh_upload (content : list byte) : UploadedFile :=
  mkUploadedFile content 0.

Definition file_read (f : UploadedFile) : list byte * UploadedFile :=
  (skipn (file_pos f) (file_buffer f),
   mkUploadedFile (file_buffer f) (Nat.max (file_pos f) (List.length (file_buffer f)))).

Definition getbuffer (f : UploadedFile) : list byte := file_buffer f.

(** The encoding steps of [get_hash] after the file has been read. *)
Definition fingerprint_chars (file_content : list byte) : list ascii :=
  let hash_sha256 := Sha256.digest file_content in
  let base64_hash :=
    PyStr.replace "_" "-"
      (PyStr.rstrip "=" (Base64.urlsafe_b64encode hash_sha256)) in
  PyStr.lower base64_hash.

Definition fingerprint (file_content : list byte) : string :=
  string_of_list_ascii (fingerprint_chars file_content).

Definition bytes_of_string (s : string) : list byte := list_byte_of_string s.

(** The characters an index name may contain. *)
Definition store_safe (c : ascii) : bool :=
  let n := nat_of_ascii c in
  ((97 <=? n)%nat && (n <=? 122)%nat) || ((48 <=? n)%nat && (n <=? 57)%nat)
  || PyStr.eqc c "-".

(** What the steps after the encoding do to one character. *)
Definition finish_char (c : ascii) : ascii :=
  PyStr.lower_char
    (let t := if PyStr.eqc c "+" then "-"%char
              else if PyStr.eqc c "/" then "_"%char else c in
     if PyStr.eqc t "_" then "-"%char else t).

Definition sextet_char (c : ascii) : Prop :=
  exists i : N, (i < 64)%N /\ c = Base64.table_char i.

(* ===================================================================== *)
(** * Exceptions, outcomes and the services the pipeline talks to          *)
(* ===================================================================== *)

Inductive exn :=
| FileNotFoundError
| JSONDecodeError
| AttributeError
| TypeError
| NotFoundException (name : string)
| ConflictException (name : string)
| IndexError
| BatchLimitExceeded (size : nat)
| EmptyInputsError
| UnicodeDecodeError.

(** What running a piece of Python code gives: a value, an exception that
    is propagating, or no answer within the polling budget. *)
Inductive outcome (A : Type) :=
| Return (a : A)
| Raise (e : exn)
| Diverge.
Arguments Return {A} a.
Arguments Raise {A} e.
Arguments Diverge {A}.

#[local] Set Warnings "-register-all".

(** Parsed JSON documents; they double as the Python values that flow
    from [json.load] into [delete_index], and as the result of
    [validate_index] ([True] or [None]). *)
Inductive json :=
| JNull
| JBool (b : bool)
| JNum (n : Z)
| JStr (s : string)
| JArr (items : list json)
| JObj (members : list (string * json)).

(** Python truthiness, as [if index:] and [if not is_index_exist:] use it. *)
Definition truthy (v : json) : bool :=
  match v with
  | JNull => false
  | JBool b => b
  | JNum n => negb (Z.eqb n 0)
  | JStr s => negb (String.eqb s "")
  | JArr items => match items with [] => false | _ => true end
  | JObj members => match members with [] => false | _ => true end
  end.

(** The content of [const.json], up to parsing: a text [json.load] turns
    into a value, a text it rejects, or bytes that [open(..., 'r')] cannot
    decode as text at all. *)
Inductive file_content :=
| JsonText (v : json)
| OtherText (raw : string)
| UndecodableBytes.

Inductive input_type := Passage | Query.

Inductive prompt :=
| EnhancePrompt (query : string)
| SummaryPrompt (results query : string).

(** The hosted models and the PDF text extraction are opaque functions:
    one embedding per text, one relevance score per pair of vectors, the
    chunk texts of a PDF, the generated text of a prompt. *)
Class Services := {
  vector : Type;
  embed_model : input_type -> string -> vector;
  similarity : vector -> vector -> Z;
  split_pdf : list byte -> list string;
  generate_content : prompt -> string }.

Definition batch_limit : nat := 96.

(** [range(start, stop, step)] for a positive step. *)
Definition py_range (start stop step : nat) : list nat :=
  map (fun i => start + i * step) (seq 0 ((stop - start + step - 1) / step)).

(** [l[a:b]] for indices that are not negative. *)
Definition slice {A} (a b : nat) (l : list A) : list A :=
  firstn (b - a) (skipn a l).

(** Code runs in a state-and-exception monad: side effects made before
    an exception is raised stay made. *)
Definition M (S A : Type) : Type := S -> outcome A * S.

Definition ret {S A} (a : A) : M S A := fun s => (Return a, s).

Definition bind {S A B} (m : M S A) (k : A -> M S B) : M S B :=
  fun s =>
    match m s with
    | (Return a, s') => k a s'
    | (Raise e, s') => (Raise e, s')
    | (Diverge, s') => (Diverge, s')
    end.

Definition raise {S A} (e : exn) : M S A := fun s => (Raise e, s).

Definition diverge {S A} : M S A := fun s => (Diverge, s).

Definition get {S} : M S S := fun s => (Return s, s).

Definition modify {S} (f : S -> S) : M S unit := fun s => (Return tt, f s).

(** [try: body except FileNotFoundError: handler] *)
Definition try_except_FileNotFoundError {S A} (body handler : M S A) : M S A :=
  fun s =>
    match body s with
    | (Raise FileNotFoundError, s') => handler s'
    | r => r
    end.

Notation "'let*' x ':=' m 'in' k" := (bind m (fun x => k))
  (at level 10, x name, m at level 100, k at level 200).
Notation "m '>>' k" := (bind m (fun _ => k))
  (at level 60, right associativity).

(** [for x in xs: acc = body(x, acc)] *)
Fixpoint for_each {S A B} (xs : list A) (body : A -> B -> M S B) (acc : B) : M S B :=
  match xs with
  | [] => ret acc
  | x :: xs' => let* acc' := body x acc in for_each xs' body acc'
  end.

(** A small instance to run the pipeline on: every byte of the upload is
    one chunk, a text is embedded as its length, closer lengths score
    higher, and the language model echoes its input. *)
Definition demo_services : Services := {|
  vector := Z;
  embed_model := fun _ text => Z.of_nat (String.length text);
  similarity := fun q v => (- Z.abs (q - v))%Z;
  split_pdf := map (fun b => String (ascii_of_byte b) EmptyString);
  generate_content := fun p =>
    match p with
    | EnhancePrompt query => query
    | SummaryPrompt results _ => results
    end |}.

Section Pipeline.
Context {svc : Services}.

(** A record of the store: [{"id", "values", "metadata": {"text"}}]. *)
Record record := mkRecord {
  rec_id : string;
  rec_values : vector;
  rec_text : string }.

(** One entry of [data_list]: [{'id', 'text'}]. *)
Record datum := mkDatum {
  d_id : string;
  d_text : string }.

(** An index of the store: how many more sleeps until it reports ready,
    and its records by namespace. *)
Record index_info := mkIndex {
  pending : nat;
  namespaces : gmap string (list record) }.

Inductive event :=
| EvHasIndex (name : string)
| EvCreateIndex (name : string) (dimension : nat) (metric : string)
| EvDescribeIndex (name : string)
| EvDeleteIndex (name : string)
| EvEmbed (mode : input_type) (inputs : list string)
| EvUpsert (index namespace : string) (count : nat)
| EvQuery (index namespace : string) (top_k : nat)
| EvSleep (seconds : nat)
| EvChunk
| EvGenerate (p : prompt)
| EvLog (message : string).

(** The [VectorDB] object ([self]), the vector store behind [self.pc],
    the file [const.json] and the calls made so far. *)
Record state := mkState {
  self_uploaded_file : UploadedFile;
  self_index_name : option string;
  pc_indexes : gmap string index_info;
  pc_provision_delay : nat;
  const_json : option file_content;
  trace : list event }.

Definition with_trace (t : list event) (s : state) : state :=
  mkState (self_uploaded_file s) (self_index_name s) (pc_indexes s)
          (pc_provision_delay s) (const_json s) t.

Definition with_indexes (m : gmap string index_info) (s : state) : state :=
  mkState (self_uploaded_file s) (self_index_name s) m
          (pc_provision_delay s) (const_json s) (trace s).

Definition with_const_json (c : option file_content) (s : state) : state :=
  mkState (self_uploaded_file s) (self_index_name s) (pc_indexes s)
          (pc_provision_delay s) c (trace s).

Definition with_self (f : UploadedFile) (name : option string) (s : state) : state :=
  mkState f name (pc_indexes s) (pc_provision_delay s) (const_json s) (trace s).

Definition emit (ev : event) : M state unit :=
  modify (fun s => with_trace (trace s ++ [ev]) s).

(* ------------------------------------------------------------------- *)
(** ** The vector store client ([self.pc]) and [time.sleep]              *)
(* ------------------------------------------------------------------- *)

(** The store answers as the hosted service does: creating a name that
    exists is a conflict, describing, opening or deleting a name that
    does not exist is "not found", and [embed] refuses more than
    [batch_limit] inputs. *)

Definition pc_has_index (name : string) : M state bool :=
  emit (EvHasIndex name) >>
  let* s := get in
  ret (match pc_indexes s !! name with Some _ => true | None => false end).

Definition pc_create_index (name : string) (dimension : nat) (metric : string)
  : M state unit :=
  emit (EvCreateIndex name dimension metric) >>
  let* s := get in
  match pc_indexes s !! name with
  | Some _ => raise (ConflictException name)
  | None => modify (with_indexes (<[name := mkIndex (pc_provision_delay s) ∅]> (pc_indexes s)))
  end.

(** [self.pc.describe_index(name).status['ready']] *)
Definition pc_describe_index_ready (name : string) : M state bool :=
  emit (EvDescribeIndex name) >>
  let* s := get in
  match pc_indexes s !! name with
  | Some i => ret (Nat.eqb (pending i) 0)
  | None => raise (NotFoundException name)
  end.

Definition pc_delete_index (name : string) : M state unit :=
  emit (EvDeleteIndex name) >>
  let* s := get in
  match pc_indexes s !! name with
  | Some _ => modify (with_indexes (delete name (pc_indexes s)))
  | None => raise (NotFoundException name)
  end.

(** [self.pc.Index(name)]: the handle is the name of the index. *)
Definition pc_Index (name : string) : M state string :=
  let* s := get in
  match pc_indexes s !! name with
  | Some _ => ret name
  | None => raise (NotFoundException name)
  end.

(** [self.pc.inference.embed(model=..., inputs=inputs, ...)]; the
    service takes between 1 and 96 inputs a call and refuses any other
    request. *)
Definition pc_embed (mode : input_type) (inputs : list string) : M state (list vector) :=
  emit (EvEmbed mode inputs) >>
  match inputs with
  | [] => raise EmptyInputsError
  | _ :: _ =>
      if Nat.leb (length inputs) batch_limit
      then ret (map (embed_model mode) inputs)
      else raise (BatchLimitExceeded (length inputs))
  end.

(** Provisioning advances while the program sleeps. *)
Definition tick (m : gmap string index_info) : gmap string index_info :=
  (fun i => mkIndex (Nat.pred (pending i)) (namespaces i)) <$> m.

Definition time_sleep (seconds : nat) : M state unit :=
  emit (EvSleep seconds) >>
  let* s := get in
  modify (with_indexes (tick (pc_indexes s))).

Fixpoint upsert_one (r : record) (rs : list record) : list record :=
  match rs with
  | [] => [r]
  | r' :: rs' =>
      if String.eqb (rec_id r') (rec_id r) then r :: rs' else r' :: upsert_one r rs'
  end.

Definition upsert_records (vectors old : list record) : list record :=
  fold_left (fun acc r => upsert_one r acc) vectors old.

Definition records_of (i : index_info) (namespace : string) : list record :=
  default [] (namespaces i !! namespace).

(** [index.upsert(vectors=..., namespace=...)] *)
Definition index_upsert (index : string) (vectors : list record) (namespace : string)
  : M state unit :=
  emit (EvUpsert index namespace (length vectors)) >>
  let* s := get in
  match pc_indexes s !! index with
  | Some i =>
      modify (with_indexes
        (<[index := mkIndex (pending i)
                      (<[namespace := upsert_records vectors (records_of i namespace)]>
                         (namespaces i))]> (pc_indexes s)))
  | None => raise (NotFoundException index)
  end.

(** Best score first; equal scores keep their stored order. *)
Fixpoint insert_ranked (q : vector) (r : record) (rs : list record) : list record :=
  match rs with
  | [] => [r]
  | r' :: rs' =>
      if Z.leb (similarity q (rec_values r')) (similarity q (rec_values r))
      then r :: r' :: rs'
      else r' :: insert_ranked q r rs'
  end.

Definition rank (q : vector) (rs : list record) : list record :=
  fold_right (insert_ranked q) [] rs.

(** [index.query(namespace=..., vector=..., top_k=..., ...)['matches']] *)
Definition index_query (index namespace : string) (v : vector) (top_k : nat)
  : M state (list record) :=
  emit (EvQuery index namespace top_k) >>
  let* s := get in
  match pc_indexes s !! index with
  | Some i => ret (firstn top_k (rank v (records_of i namespace)))
  | None => raise (NotFoundException index)
  end.

(* ------------------------------------------------------------------- *)
(** ** [const.json]                                                      *)
(* ------------------------------------------------------------------- *)

(** [with open('const.json', 'r') as file: json.load(file)] *)
Definition json_load_const : M state json :=
  let* s := get in
  match const_json s with
  | None => raise FileNotFoundError
  | Some UndecodableBytes => raise UnicodeDecodeError
  | Some (OtherText _) => raise JSONDecodeError
  | Some (JsonText v) => ret v
  end.

(** The value a parsed object holds under [key]. [members] are the pairs
    in the order of the text; [json.load] stores them into a dict one
    after the other, so of a repeated key the last value stays. *)
Definition dict_lookup (key : string) (members : list (string * json)) : option json :=
  snd <$> List.find (fun kv => String.eqb (fst kv) key) (rev members).

(** [data.get(key)] *)
Definition dict_get (data : json) (key : string) : M state json :=
  match data with
  | JObj members => ret (default JNull (dict_lookup key members))
  | _ => raise AttributeError
  end.

(** [with open("const.json", "w") as f: json.dump(v, f, indent=4)] *)
Definition json_dump_const (v : json) : M state unit :=
  modify (with_const_json (Some (JsonText v))).

(* ------------------------------------------------------------------- *)
(** ** class VectorDB                                                    *)
(* ------------------------------------------------------------------- *)

(** [self.index_name]; the attribute exists once [get_hash] has run. *)
Definition self_name : M state string :=
  let* s := get in
  match self_index_name s with
  | Some name => ret name
  | None => raise AttributeError
  end.

(** The handler passes the very object the [VectorDB] was built with, so
    the read moves the position of [self.uploaded_file]. *)
Definition get_hash : M state string :=
  let* s := get in
  let '(file_content, uploaded_file) := file_read (self_uploaded_file s) in
  let index_name := fingerprint file_content in
  modify (with_self uploaded_file (Some index_name)) >>
  ret index_name.

(** [chunk]: [save_pdf], the loader and the splitter; the result is the
    [page_content] of each chunk. *)
Definition chunk : M state (list string) :=
  emit EvChunk >>
  let* s := get in
  ret (split_pdf (getbuffer (self_uploaded_file s))).

Fixpoint number_docs (cnt : nat) (docs : list string) : list datum :=
  match docs with
  | [] => []
  | doc :: rest => mkDatum ("Vec" +:+ pretty cnt) doc :: number_docs (S cnt) rest
  end.

(** The body of [for data in range(96, len(data_list), 96)], on the
    loop variables [embeddings_list] and [prev_index]. *)
Definition embed_loop_body (data_list : list datum) (data : nat)
    (vars : list vector * nat) : M state (list vector * nat) :=
  let '(embeddings_list, prev_index) := vars in
  let* embeddings :=
    pc_embed Passage (map d_text (slice prev_index data data_list)) in
  let embeddings_list := embeddings_list ++ embeddings in
  let prev_index := data in
  if Nat.ltb (length data_list) (prev_index + 96) then
    let* embeddings :=
      pc_embed Passage
        (map d_text (slice prev_index (length data_list) data_list)) in
    ret (embeddings_list ++ embeddings, prev_index)
  else ret (embeddings_list, prev_index).

(** The embedding block of [convert_vectors]. *)
Definition embed_data_list (data_list : list datum) : M state (list vector) :=
  let embeddings_list := [] in
  let prev_index := 0 in
  if Nat.ltb (length data_list) 96 then
    let* embeddings := pc_embed Passage (map d_text data_list) in
    ret (embeddings_list ++ embeddings)
  else
    let* vars :=
      for_each (py_range 96 (length data_list) 96)
               (embed_loop_body data_list) (embeddings_list, prev_index) in
    ret (fst vars).

(** [while not ...status['ready']: time.sleep(5)] *)
Fixpoint wait_until_ready (fuel : nat) (name : string) : M state unit :=
  match fuel with
  | O => diverge
  | S fuel' =>
      let* ready := pc_describe_index_ready name in
      if ready then ret tt else time_sleep 5 >> wait_until_ready fuel' name
  end.

Definition create_index (fuel : nat) : M state unit :=
  let* name := self_name in
  let* present := pc_has_index name in
  (if negb present then pc_create_index name 1024 "cosine" else ret tt) >>
  wait_until_ready fuel name.

Definition make_records (data_list : list datum) (embeddings : list vector)
  : list record :=
  map (fun de => mkRecord (d_id (fst de)) (snd de) (d_text (fst de)))
      (combine data_list embeddings).

Definition load_vectors (data_list : list datum) (embeddings : list vector)
  : M state string :=
  let* name := self_name in
  let* index := pc_Index name in
  let records := make_records data_list embeddings in
  index_upsert index records name >>
  time_sleep 20 >>
  ret index.

Definition convert_vectors (fuel : nat) : M state string :=
  let* docs := chunk in
  let data_list := number_docs 1 docs in
  let* embeddings_list := embed_data_list data_list in
  create_index fuel >>
  load_vectors data_list embeddings_list.

Definition get_results (index : string) (query : string) : M state (list string) :=
  let* query_embedding := pc_embed Query [query] in
  match query_embedding with
  | [] => raise IndexError
  | q :: _ =>
      let* name := self_name in
      let* matches := index_query index name q 10 in
      ret (map rec_text matches)
  end.

Definition delete_index (index : json) : M state unit :=
  if truthy index then
    match index with
    | JStr name => pc_delete_index name
    | _ => raise TypeError
    end
  else ret tt.

(** The result is [True] or, when the test fails, the [None] of a
    function that ends without [return]. *)
Definition validate_index (hash_key : string) : M state json :=
  let* present := pc_has_index hash_key in
  if present then ret (JBool true) else ret JNull.

(* ------------------------------------------------------------------- *)
(** ** utilities/llm_prompt.py                                           *)
(* ------------------------------------------------------------------- *)

Definition enhance_query (query : string) : M state string :=
  emit (EvGenerate (EnhancePrompt query)) >>
  ret (generate_content (EnhancePrompt query)).

Definition get_summary (results query : string) : M state string :=
  emit (EvGenerate (SummaryPrompt results query)) >>
  ret (generate_content (SummaryPrompt results query)).

(* ------------------------------------------------------------------- *)
(** ** main.py: the "Give Summary" handler                               *)
(* ------------------------------------------------------------------- *)


Definition newline : string := String (ascii_of_nat 10) EmptyString.

Definition pointer_of (hash_value : string) : json :=
  JObj [("name", JStr hash_value)].

Definition summary_btn (fuel : nat) (query : string) : M state string :=
  let* hash_value := get_hash in
  let* is_index_exist := validate_index hash_value in
  let* enhanced_query := enhance_query query in
  let* index :=
    if negb (truthy is_index_exist) then
      let* index := convert_vectors fuel in
      try_except_FileNotFoundError
        (let* data := json_load_const in
         let* name := dict_get data "name" in
         delete_index name)
        (emit (EvLog "File Not Found")) >>
      ret index
    else pc_Index hash_value in
  json_dump_const (pointer_of hash_value) >>
  emit (EvLog (query +:+ " - " +:+ enhanced_query)) >>
  let* response := get_results index enhanced_query in
  let response := String.concat newline response in
  let* result := get_summary response enhanced_query in
  emit (EvLog "Summary loaded successfully") >>
  ret result.


(* ------------------------------------------------------------------- *)
(** ** Vocabulary of the statements                                      *)
(* ------------------------------------------------------------------- *)

Definition embed_events (batches : list (list string)) : list event :=
  map (EvEmbed Passage) batches.

Definition has (m : gmap string index_info) (name : string) : bool :=
  match m !! name with Some _ => true | None => false end.

(** The calls of the readiness loop for an index that needs [p] more
    sleeps. *)
Fixpoint poll_events (name : string) (p : nat) : list event :=
  match p with
  | O => [EvDescribeIndex name]
  | S p' => EvDescribeIndex name :: EvSleep 5 :: poll_events name p'
  end.

Definition is_creation (ev : event) : bool :=
  match ev with EvCreateIndex _ _ _ => true | _ => false end.

Definition score (q : vector) (r : record) : Z := similarity q (rec_values r).

(** Scores never increase along a ranked list. *)
Fixpoint descending (q : vector) (rs : list record) : Prop :=
  match rs with
  | [] => True
  | r :: rest =>
      match rest with
      | [] => True
      | r' :: _ => (score q r' <= score q r)%Z
      end /\ descending q rest
  end.

(** What the handler does once [index] is known: record the pointer,
    query, summarise. *)
Definition answer_events (name query enhanced summary_input : string) : list event :=
  [EvLog (query +:+ " - " +:+ enhanced);
   EvEmbed Query [enhanced];
   EvQuery name name 10;
   EvGenerate (SummaryPrompt summary_input enhanced);
   EvLog "Summary loaded successfully"].

Definition snippets (i : index_info) (name enhanced : string) : string :=
  String.concat newline
    (map rec_text
       (firstn 10 (rank (embed_model Query enhanced) (records_of i name)))).



(** The two parts of the handler around the choice of the index: the
    [try] block of the build path, and everything from the rewrite of
    [const.json] on. *)
Definition evict_cached : M state unit :=
  try_except_FileNotFoundError
    (let* data := json_load_const in
     let* name := dict_get data "name" in
     delete_index name)
    (emit (EvLog "File Not Found")).

Definition answer (hash_value query enhanced_query index : string) : M state string :=
  json_dump_const (pointer_of hash_value) >>
  emit (EvLog (query +:+ " - " +:+ enhanced_query)) >>
  let* response := get_results index enhanced_query in
  let response := String.concat newline response in
  let* result := get_summary response enhanced_query in
  emit (EvLog "Summary loaded successfully") >>
  ret result.




(** The chunks that reach the embedding service: all of them, except
    that a list whose length is a positive multiple of 96 loses its last
    96. *)
Definition embedded_prefix (data_list : list datum) : list datum :=
  if (Nat.leb 96 (List.length data_list)
      && Nat.eqb (List.length data_list mod 96) 0)%bool
  then firstn (List.length data_list - 96) data_list
  else data_list.


End Pipeline.

(** States and inputs to run the pipeline on. *)
Definition demo_state (content : list byte) (cache : option file_content) : state :=
  @mkState demo_services (fresh_upload content) None ∅ 2 cache [].

Definition demo_data (n : nat) : list datum :=
  number_docs 1 (repeat "text" n).

(** The number of embeddings the block returns for [n] chunks. *)
Definition embedding_count (n : nat) : option nat :=
  match fst (embed_data_list (demo_data n) (demo_state [] None)) with
  | Return embeddings => Some (List.length embeddings)
  | _ => None
  end.

Definition shifted_upload_state : state :=
  @mkState demo_services
    (mkUploadedFile (bytes_of_string "xabc") 1) None ∅ 7
    (Some (OtherText "stale")) [EvLog "earlier"].

Definition named_state (name : string) (indexes : gmap string index_info) : state :=
  @mkState demo_services (fresh_upload []) (Some name) indexes 2 None [].

(** Twelve records whose texts have lengths 1 to 12. *)
Definition twelve_records : list (@record demo_services) :=
  map (fun n => @mkRecord demo_services ("Vec" +:+ pretty n) (Z.of_nat n)
                  (string_of_list_ascii (repeat "a"%char n)))
      (seq 1 12).

Definition two_embeddings : list (@vector demo_services) := [10%Z; 20%Z].

(** A store that holds the (empty) index of the document "abc", next to a
    [const.json] that is not JSON. *)
Definition indexed_state : state :=
  @mkState demo_services (fresh_upload (bytes_of_string "abc")) None
    {[fingerprint (bytes_of_string "abc") := @mkIndex demo_services 0 ∅]} 2
    (Some (OtherText "{")) [].

Definition twelve_index : @index_info demo_services :=
  @mkIndex demo_services 0 {["doc" := twelve_records]}.


(* ===================================================================== *)
(** * utilities/config_logger.py                                           *)
(* ===================================================================== *)

Module Logging.

(** The part of the file system [get_logger] looks at, by path relative
    to the working directory. *)
Inductive fs_entry := Dir | File.

Inductive os_error := NotADirectoryError | IsADirectoryError.

Definition NOTSET : nat := 0.
Definition DEBUG : nat := 10.
Definition ERROR : nat := 40.

Inductive handler :=
| FileHandler (path : string) (level : nat) (formatter : option string)
| StreamHandler (level : nat) (formatter : option string).

Record logger := mkLogger {
  level : nat;
  handlers : list handler;
  propagate : bool }.

(** The root logger, and [Logger.manager.loggerDict] restricted to the
    loggers proper. *)
Record world := mkWorld {
  fs : gmap string fs_entry;
  root : logger;
  loggerDict : gmap string logger }.

Inductive logger_ref := RootRef | Named (name : string).

Definition find_logger (w : world) (r : logger_ref) : option logger :=
  match r with
  | RootRef => Some (root w)
  | Named name => loggerDict w !! name
  end.

Definition new_logger : logger := mkLogger NOTSET [] true.

(** [logging.getLogger(name)] *)
Definition getLogger (name : string) (w : world) : logger_ref * world :=
  if (String.eqb name "" || String.eqb name "root")%bool then (RootRef, w)
  else
    match loggerDict w !! name with
    | Some _ => (Named name, w)
    | None => (Named name, mkWorld (fs w) (root w) (<[name := new_logger]> (loggerDict w)))
    end.


(** [name.rfind(".", 0, stop)] *)
Fixpoint rfind_dot (name : string) (stop : nat) : option nat :=
  match stop with
  | O => None
  | S k =>
      match String.get k name with
      | Some c => if Ascii.eqb c "." then Some k else rfind_dot name k
      | None => rfind_dot name k
      end
  end.

(** The parent of the logger called [name]: the nearest existing logger
    among its dotted prefixes, found as [Manager._fixupParents] walks
    them, and the root logger when there is none. *)
Fixpoint fixup_parent (fuel : nat) (w : world) (name : string) (i : option nat)
  : logger_ref :=
  match fuel, i with
  | S k, Some (S j) =>
      let substr := String.substring 0 (S j) name in
      match loggerDict w !! substr with
      | Some _ => Named substr
      | None => fixup_parent k w name (rfind_dot name j)
      end
  | _, _ => RootRef
  end.

Definition parent_of (w : world) (name : string) : logger_ref :=
  fixup_parent (String.length name) w name (rfind_dot name (String.length name)).

(** [logger.hasHandlers()] *)
Fixpoint hasHandlers_from (fuel : nat) (w : world) (r : logger_ref) : bool :=
  match fuel with
  | O => false
  | S k =>
      match r with
      | RootRef => match handlers (root w) with [] => false | _ => true end
      | Named name =>
          match loggerDict w !! name with
          | None => false
          | Some c =>
              match handlers c with
              | _ :: _ => true
              | [] =>
                  if propagate c then hasHandlers_from k w (parent_of w name)
                  else false
              end
          end
      end
  end.

Definition hasHandlers (w : world) (r : logger_ref) : bool :=
  match r with
  | RootRef => hasHandlers_from 1 w r
  | Named name => hasHandlers_from (S (S (String.length name))) w r
  end.

Definition update_logger (r : logger_ref) (f : logger -> logger) (w : world) : world :=
  match r with
  | RootRef => mkWorld (fs w) (f (root w)) (loggerDict w)
  | Named name => mkWorld (fs w) (root w) (alter f name (loggerDict w))
  end.

Definition setLevel (l : nat) (c : logger) : logger :=
  mkLogger l (handlers c) (propagate c).

Definition addHandler (h : handler) (c : logger) : logger :=
  mkLogger (level c) (handlers c ++ [h]) (propagate c).

(** A file name that stays inside [logs]: no separator, and not one of
    the names of a directory. *)
Definition plain_file_name (filename : string) : bool :=
  negb (String.eqb filename "")
  && negb (String.eqb filename ".")
  && negb (String.eqb filename "..")
  && forallb (fun c => negb (Ascii.eqb c "/")) (list_ascii_of_string filename).

(** [logging.FileHandler('logs/<filename>')] opens the file for
    appending when it is built. *)
Definition open_log_file (filename : string) (w : world) : os_error + world :=
  let path := "logs/" +:+ filename in
  match fs w !! "logs" with
  | Some Dir =>
      match fs w !! path with
      | Some Dir => inl IsADirectoryError
      | Some File => inr w
      | None => inr (mkWorld (<[path := File]> (fs w)) (root w) (loggerDict w))
      end
  | _ => inl NotADirectoryError
  end.

Definition log_format : string :=
  "%(asctime)s - %(name)s - %(levelname)s - %(filename)s - line %(lineno)d - %(message)s".

Inductive result :=
| Returned (logger : logger_ref) (w : world)
| Raised (e : os_error) (w : world)
| Unmodelled.

Definition get_logger (logger_name filename : string) (w : world) : result :=
  if negb (plain_file_name filename) then Unmodelled else
  let w :=
    match fs w !! "logs" with
    | Some _ => w
    | None => mkWorld (<["logs" := Dir]> (fs w)) (root w) (loggerDict w)
    end in
  let '(logger, w) := getLogger logger_name w in
  if negb (hasHandlers w logger) then
    let w := update_logger logger (setLevel DEBUG) w in
    match open_log_file filename w with
    | inl e => Raised e w
    | inr w =>
        let file_handler := FileHandler ("logs/" +:+ filename) DEBUG (Some log_format) in
        let console_handler := StreamHandler ERROR (Some log_format) in
        let w := update_logger logger (addHandler file_handler) w in
        let w := update_logger logger (addHandler console_handler) w in
        Returned logger w
    end
  else Returned logger w.


(** The world after the directory test and [getLogger], and the two
    handlers [get_logger] attaches. *)
Definition prepared (logger_name : string) (w : world) : logger_ref * world :=
  getLogger logger_name
    (match fs w !! "logs" with
     | Some _ => w
     | None => mkWorld (<["logs" := Dir]> (fs w)) (root w) (loggerDict w)
     end).


(** The same process after [logging.basicConfig()], and a working
    directory in which [logs] is a regular file. *)
Definition configured_world : world :=
  mkWorld ∅ (mkLogger 30 [StreamHandler NOTSET None] true) ∅.


End Logging.

(* ===================================================================== *)
(** * The fingerprint                                                      *)
(* ===================================================================== *)

Lemma land_63_lt (x : N) : (N.land x 63 < 64)%N.
Proof.
  change 63%N with (N.ones 6). rewrite N.land_ones.
  apply N.mod_lt. discriminate.
Qed.

Lemma tail_two_bits_lt (x : N) : (N.shiftl (N.land x 3) 4 < 64)%N.
Proof.
  change 3%N with (N.ones 2). rewrite N.land_ones, N.shiftl_mul_pow2.
  assert (x mod 2 ^ 2 < 2 ^ 2)%N by (apply N.mod_lt; discriminate).
  change (2 ^ 2)%N with 4%N in *. change (2 ^ 4)%N with 16%N. lia.
Qed.

Lemma tail_four_bits_lt (x : N) : (N.shiftl (N.land x 15) 2 < 64)%N.
Proof.
  change 15%N with (N.ones 4). rewrite N.land_ones, N.shiftl_mul_pow2.
  assert (x mod 2 ^ 4 < 2 ^ 4)%N by (apply N.mod_lt; discriminate).
  change (2 ^ 4)%N with 16%N in *. change (2 ^ 2)%N with 4%N. lia.
Qed.

Lemma sextet_land (x : N) : sextet_char (Base64.table_char (N.land x 63)).
Proof. exists (N.land x 63). split; [apply land_63_lt | reflexivity]. Qed.

Lemma table_chars_checked :
  forallb (fun n => let c := Base64.table_char (N.of_nat n) in
                    negb (PyStr.eqc c "=")
                    && negb (PyStr.eqc (if PyStr.eqc c "+" then "-"%char
                                        else if PyStr.eqc c "/" then "_"%char else c) "=")
                    && store_safe (finish_char c))
          (seq 0 64) = true.
Proof. vm_compute. reflexivity. Qed.

Lemma sextet_char_facts (c : ascii) :
  sextet_char c ->
  PyStr.eqc c "=" = false
  /\ PyStr.eqc (if PyStr.eqc c "+" then "-"%char
                else if PyStr.eqc c "/" then "_"%char else c) "=" = false
  /\ store_safe (finish_char c) = true.
Proof.
  intros (i & Hi & ->).
  pose proof table_chars_checked as Hall.
  rewrite forallb_forall in Hall.
  specialize (Hall (N.to_nat i)).
  rewrite N2Nat.id in Hall.
  assert (Hin : In (N.to_nat i) (seq 0 64)) by (apply in_seq; lia).
  apply Hall in Hin. cbv zeta in Hin.
  apply andb_prop in Hin as [Hin H3]. apply andb_prop in Hin as [H1 H2].
  apply negb_true_iff in H1. apply negb_true_iff in H2. auto.
Qed.

(** The encoder writes table characters and then only padding. *)
Lemma b64encode_shape_upto (n : nat) :
  forall bs : list byte, (List.length bs <= n)%nat ->
  exists body k,
    Base64.b64encode bs = body ++ repeat Base64.pad_char k
    /\ Forall sextet_char body
    /\ (bs <> [] -> body <> []).
Proof.
  induction n as [n IH] using lt_wf_ind. intros bs Hlen.
  destruct bs as [|a [|b [|c rest]]].
  - exists [], 0%nat. repeat split; [constructor | congruence].
  - eexists [_; _], 2%nat. split; [reflexivity|]. split; [|discriminate].
    repeat constructor; [apply sextet_land|].
    eexists. split; [apply tail_two_bits_lt | reflexivity].
  - eexists [_; _; _], 1%nat. split; [reflexivity|]. split; [|discriminate].
    repeat constructor; try apply sextet_land.
    eexists. split; [apply tail_four_bits_lt | reflexivity].
  - destruct (IH (List.length rest)) with (bs := rest) as (body & k & Heq & Hall & _).
    { simpl in Hlen. lia. }
    { lia. }
    eexists (_ :: _ :: _ :: _ :: body), k. split.
    { change (Base64.b64encode (a :: b :: c :: rest))
        with (Base64.table_char (N.land (N.shiftr (N.lor (N.shiftl (N.lor (N.shiftl (Byte.to_N a) 8) (Byte.to_N b)) 8) (Byte.to_N c)) 18) 63)
              :: Base64.table_char (N.land (N.shiftr (N.lor (N.shiftl (N.lor (N.shiftl (Byte.to_N a) 8) (Byte.to_N b)) 8) (Byte.to_N c)) 12) 63)
              :: Base64.table_char (N.land (N.shiftr (N.lor (N.shiftl (N.lor (N.shiftl (Byte.to_N a) 8) (Byte.to_N b)) 8) (Byte.to_N c)) 6) 63)
              :: Base64.table_char (N.land (N.lor (N.shiftl (N.lor (N.shiftl (Byte.to_N a) 8) (Byte.to_N b)) 8) (Byte.to_N c)) 63)
              :: Base64.b64encode rest).
      rewrite Heq. reflexivity. }
    split; [|discriminate].
    repeat (constructor; [apply sextet_land|]). exact Hall.
Qed.

Lemma b64encode_shape (bs : list byte) :
  exists body k,
    Base64.b64encode bs = body ++ repeat Base64.pad_char k
    /\ Forall sextet_char body
    /\ (bs <> [] -> body <> []).
Proof. apply (b64encode_shape_upto (List.length bs)). lia. Qed.

Lemma rstrip_all (c : ascii) (k : nat) : PyStr.rstrip c (repeat c k) = [].
Proof.
  induction k as [|k IH]; [reflexivity|].
  simpl. rewrite IH. unfold PyStr.eqc. rewrite Ascii.eqb_refl. reflexivity.
Qed.

Lemma rstrip_app_repeat (c : ascii) (body : list ascii) (k : nat) :
  Forall (fun a => PyStr.eqc a c = false) body ->
  PyStr.rstrip c (body ++ repeat c k) = body.
Proof.
  induction 1 as [|a body Ha _ IH]; simpl.
  - apply rstrip_all.
  - rewrite IH, Ha. destruct body; reflexivity.
Qed.

Lemma digest_nonempty (msg : list byte) : Sha256.digest msg <> [].
Proof. unfold Sha256.digest, Sha256.digest_bytes, Sha256.be32. discriminate. Qed.

Lemma digest_length (msg : list byte) : List.length (Sha256.digest msg) = 32%nat.
Proof. reflexivity. Qed.

(** After the padding is stripped, what is left is the image of table
    characters under the remaining character-wise steps. *)
Lemma fingerprint_chars_spec (file_content : list byte) :
  exists body,
    fingerprint_chars file_content = map finish_char body
    /\ Forall sextet_char body
    /\ body <> [].
Proof.
  destruct (b64encode_shape (Sha256.digest file_content)) as (body & k & Heq & Hall & Hne).
  exists body. split; [|split; [exact Hall | apply Hne, digest_nonempty]].
  unfold fingerprint_chars, Base64.urlsafe_b64encode, PyStr.translate_urlsafe.
  rewrite Heq, map_app, map_repeat.
  change (if PyStr.eqc Base64.pad_char "+" then "-"%char
          else if PyStr.eqc Base64.pad_char "/" then "_"%char else Base64.pad_char)
    with "="%char.
  rewrite rstrip_app_repeat.
  - unfold PyStr.lower, PyStr.replace. rewrite !map_map. reflexivity.
  - apply List.Forall_forall. intros c Hc.
    apply in_map_iff in Hc as (c0 & <- & Hc0).
    rewrite List.Forall_forall in Hall.
    apply Hall, sextet_char_facts in Hc0. tauto.
Qed.

Lemma fingerprint_chars_safe (file_content : list byte) :
  forallb store_safe (fingerprint_chars file_content) = true.
Proof.
  destruct (fingerprint_chars_spec file_content) as (body & -> & Hall & _).
  apply forallb_forall. intros c Hc.
  apply in_map_iff in Hc as (c0 & <- & Hc0).
  rewrite List.Forall_forall in Hall.
  apply sextet_char_facts. apply Hall. exact Hc0.
Qed.

Lemma fingerprint_safe (file_content : list byte) :
  forallb store_safe (list_ascii_of_string (fingerprint file_content)) = true.
Proof.
  unfold fingerprint. rewrite list_ascii_of_string_of_list_ascii.
  apply fingerprint_chars_safe.
Qed.


Example fingerprint_of_empty_file :
  fingerprint [] = "47deqpj8hbsa--timw-5jceuqerkm5nmpjwzg3hsufu".
Proof. vm_compute. reflexivity. Qed.

Example fingerprint_of_abc :
  fingerprint (bytes_of_string "abc") = "ungwv48bz-pbqudexa4ii7adyaowf3qctbd-yfiafa0".
Proof. vm_compute. reflexivity. Qed.

Example fingerprint_of_two_blocks :
  fingerprint (repeat x61 100) = "kbzzeijkonoja4k4mxarmmgoupapjno5bnabjg0owg4".
Proof. vm_compute. reflexivity. Qed.

(* ===================================================================== *)
(** * Running programs                                                     *)
(* ===================================================================== *)

Lemma bind_Return {S A B} (m : M S A) (k : A -> M S B) (s s' : S) (a : A) :
  m s = (Return a, s') -> bind m k s = k a s'.
Proof. intros E. unfold bind. rewrite E. reflexivity. Qed.

Lemma bind_Raise {S A B} (m : M S A) (k : A -> M S B) (s s' : S) (e : exn) :
  m s = (Raise e, s') -> bind m k s = (Raise e, s').
Proof. intros E. unfold bind. rewrite E. reflexivity. Qed.

Lemma bind_assoc {S A B C} (m : M S A) (f : A -> M S B) (g : B -> M S C) (s : S) :
  bind (bind m f) g s = bind m (fun x => bind (f x) g) s.
Proof. unfold bind. destruct (m s) as [[a | e |] s']; reflexivity. Qed.

Lemma bind_ret {S A B} (a : A) (k : A -> M S B) (s : S) :
  bind (ret a) k s = k a s.
Proof. reflexivity. Qed.

Lemma bind_get {S B} (k : S -> M S B) (s : S) : bind get k s = k s s.
Proof. reflexivity. Qed.




Lemma slice_length_le {A} (a b : nat) (l : list A) :
  (List.length (slice a b l) <= b - a)%nat.
Proof. unfold slice. rewrite length_take. lia. Qed.

Lemma slice_length {A} (a b : nat) (l : list A) :
  List.length (slice a b l) = Nat.min (b - a) (List.length l - a).
Proof. unfold slice. rewrite length_take, length_skipn. reflexivity. Qed.

Lemma slice_app {A} (a b c : nat) (l : list A) :
  (a <= b)%nat -> (b <= c)%nat -> slice a b l ++ slice b c l = slice a c l.
Proof.
  intros Hab Hbc. unfold slice.
  replace (skipn b l) with (skipn (b - a) (skipn a l)).
  - rewrite take_take_drop. f_equal. lia.
  - rewrite drop_drop. f_equal. lia.
Qed.

Lemma slice_from_0 {A} (b : nat) (l : list A) : slice 0 b l = firstn b l.
Proof. unfold slice. rewrite Nat.sub_0_r. reflexivity. Qed.

Lemma slice_empty {A} (a : nat) (l : list A) : slice a a l = [].
Proof. unfold slice. rewrite Nat.sub_diag. reflexivity. Qed.

Lemma b64encode_body_length_upto (n : nat) :
  forall bs : list byte, (List.length bs <= n)%nat ->
  exists body k,
    Base64.b64encode bs = body ++ repeat Base64.pad_char k
    /\ Forall sextet_char body
    /\ List.length body = ((4 * List.length bs + 2) / 3)%nat.
Proof.
  induction n as [n IH] using lt_wf_ind. intros bs Hlen.
  destruct bs as [|a [|b [|c rest]]].
  - exists [], 0%nat. repeat split. constructor.
  - eexists [_; _], 2%nat. split; [reflexivity|]. split; [|reflexivity].
    repeat constructor; [apply sextet_land|].
    eexists. split; [apply tail_two_bits_lt | reflexivity].
  - eexists [_; _; _], 1%nat. split; [reflexivity|]. split; [|reflexivity].
    repeat constructor; try apply sextet_land.
    eexists. split; [apply tail_four_bits_lt | reflexivity].
  - destruct (IH (List.length rest)) with (bs := rest) as (body & k & Heq & Hall & Hbody).
    { simpl in Hlen. lia. }
    { lia. }
    eexists (_ :: _ :: _ :: _ :: body), k. split.
    { change (Base64.b64encode (a :: b :: c :: rest))
        with (Base64.table_char (N.land (N.shiftr (N.lor (N.shiftl (N.lor (N.shiftl (Byte.to_N a) 8) (Byte.to_N b)) 8) (Byte.to_N c)) 18) 63)
              :: Base64.table_char (N.land (N.shiftr (N.lor (N.shiftl (N.lor (N.shiftl (Byte.to_N a) 8) (Byte.to_N b)) 8) (Byte.to_N c)) 12) 63)
              :: Base64.table_char (N.land (N.shiftr (N.lor (N.shiftl (N.lor (N.shiftl (Byte.to_N a) 8) (Byte.to_N b)) 8) (Byte.to_N c)) 6) 63)
              :: Base64.table_char (N.land (N.lor (N.shiftl (N.lor (N.shiftl (Byte.to_N a) 8) (Byte.to_N b)) 8) (Byte.to_N c)) 63)
              :: Base64.b64encode rest).
      rewrite Heq. reflexivity. }
    split.
    { repeat (constructor; [apply sextet_land|]). exact Hall. }
    cbn [List.length]. rewrite Hbody.
    replace (4 * S (S (S (List.length rest))) + 2)%nat
      with ((4 * List.length rest + 2) + 4 * 3)%nat by lia.
    rewrite Nat.div_add by discriminate. lia.
Qed.

Lemma string_of_list_ascii_length (l : list ascii) :
  String.length (string_of_list_ascii l) = List.length l.
Proof. induction l as [|c l IH]; [reflexivity|]. cbn. rewrite IH. reflexivity. Qed.

(** A 32-byte digest gives 43 characters once the padding is gone. *)
Lemma fingerprint_length (file_content : list byte) :
  String.length (fingerprint file_content) = 43%nat.
Proof.
  unfold fingerprint. rewrite string_of_list_ascii_length.
  destruct (b64encode_body_length_upto 32 (Sha256.digest file_content))
    as (body & k & Heq & Hall & Hbody).
  { rewrite digest_length. lia. }
  rewrite digest_length in Hbody. change ((4 * 32 + 2) / 3)%nat with 43%nat in Hbody.
  unfold fingerprint_chars, Base64.urlsafe_b64encode, PyStr.translate_urlsafe.
  rewrite Heq, map_app, map_repeat.
  change (if PyStr.eqc Base64.pad_char "+" then "-"%char
          else if PyStr.eqc Base64.pad_char "/" then "_"%char else Base64.pad_char)
    with "="%char.
  rewrite rstrip_app_repeat.
  - unfold PyStr.lower, PyStr.replace. rewrite !length_map. exact Hbody.
  - apply List.Forall_forall. intros c Hc.
    apply in_map_iff in Hc as (c0 & <- & Hc0).
    rewrite List.Forall_forall in Hall.
    apply Hall, sextet_char_facts in Hc0. tauto.
Qed.

(** From here on the fingerprint is used through the lemmas above. *)
#[global] Opaque fingerprint.
Arguments fingerprint : simpl never.

Section Proofs.
Context {svc : Services}.

Lemma with_trace_twice (t1 t2 : list event) (s : state) :
  with_trace t2 (with_trace t1 s) = with_trace t2 s.
Proof. reflexivity. Qed.

Lemma with_trace_same (s : state) : with_trace (trace s) s = s.
Proof. destruct s. reflexivity. Qed.

Lemma emit_run (ev : event) (s : state) :
  emit ev s = (Return tt, with_trace (trace s ++ [ev]) s).
Proof. reflexivity. Qed.

(* ------------------------------------------------------------------- *)
(** ** The embedding block of [convert_vectors]                          *)
(* ------------------------------------------------------------------- *)

Lemma pc_embed_run (mode : input_type) (inputs : list string) (s : state) :
  (0 < List.length inputs <= 96)%nat ->
  pc_embed mode inputs s
  = (Return (map (embed_model mode) inputs),
     with_trace (trace s ++ [EvEmbed mode inputs]) s).
Proof.
  intros [Hpos Hle]. unfold pc_embed.
  rewrite (bind_Return _ _ _ _ _ (emit_run _ s)).
  destruct inputs as [|x inputs]; [cbn in Hpos; lia|].
  unfold batch_limit.
  destruct (Nat.leb_spec (List.length (x :: inputs)) 96); [reflexivity | lia].
Qed.

Lemma pc_embed_too_many (mode : input_type) (inputs : list string) (s : state) :
  (96 < List.length inputs)%nat ->
  fst (pc_embed mode inputs s) = Raise (BatchLimitExceeded (List.length inputs)).
Proof.
  intros Hlt. unfold pc_embed.
  rewrite (bind_Return _ _ _ _ _ (emit_run _ s)).
  destruct inputs as [|x inputs]; [cbn in Hlt; lia|].
  unfold batch_limit.
  destruct (Nat.leb_spec (List.length (x :: inputs)) 96); [lia | reflexivity].
Qed.

Lemma pc_embed_nothing (mode : input_type) (s : state) :
  pc_embed mode [] s
  = (Raise EmptyInputsError, with_trace (trace s ++ [EvEmbed mode []]) s).
Proof. reflexivity. Qed.

(** The loop over [seq i j], entered with [prev_index = 96 * i]: the
    batches it sends cover the chunks from [96 * i] up to the last
    multiple of 96 the range reaches, and up to the end of the list when
    the test after the last round succeeds. *)
Lemma embed_loop_run (data_list : list datum) (j : nat) :
  forall (i : nat) (acc : list vector) (s : state),
  (j <> 0 -> 96 * (i + j) < List.length data_list)%nat ->
  exists batches,
    for_each (map (fun t => 96 + t * 96) (seq i j))%nat
             (embed_loop_body data_list) (acc, (96 * i)%nat) s
    = (Return (acc ++ map (embed_model Passage) (concat batches), (96 * (i + j))%nat),
       with_trace (trace s ++ embed_events batches) s)
    /\ Forall (fun b => 0 < List.length b <= 96)%nat batches
    /\ concat batches
       = map d_text
           (slice (96 * i)
                  (if (negb (Nat.eqb j 0)
                       && Nat.ltb (List.length data_list) (96 * (i + j) + 96))%bool
                   then List.length data_list else 96 * (i + j))%nat
                  data_list).
Proof.
  induction j as [|j IH]; intros i acc s Hlt.
  - exists []. cbn [seq map for_each concat embed_events Nat.eqb negb andb].
    rewrite Nat.add_0_r, slice_empty, !app_nil_r, with_trace_same.
    repeat split. constructor.
  - specialize (Hlt ltac:(discriminate)).
    set (n := List.length data_list) in *.
    set (first := map d_text (slice (96 * i) (96 + i * 96) data_list)).
    assert (Hfirst : (0 < List.length first <= 96)%nat).
    { unfold first. rewrite length_map, slice_length. fold n. lia. }
    cbn [seq map for_each].
    unfold embed_loop_body at 1. cbv beta iota. fold first n.
    rewrite bind_assoc, (bind_Return _ _ _ _ _ (pc_embed_run Passage first s Hfirst)).
    destruct (Nat.ltb_spec n (96 + i * 96 + 96)) as [Htail | Hmore].
    + (* the test succeeds: this was the last round *)
      assert (j = 0)%nat as -> by lia.
      set (last := map d_text (slice (96 + i * 96) n data_list)).
      assert (Hlast : (0 < List.length last <= 96)%nat).
      { unfold last. rewrite length_map, slice_length. fold n. lia. }
      fold last.
      rewrite bind_assoc, (bind_Return _ _ _ _ _ (pc_embed_run Passage last _ Hlast)).
      rewrite bind_ret.
      exists [first; last]. split; [|split].
      * cbn [seq map for_each concat embed_events trace with_trace].
        unfold ret. rewrite with_trace_twice, app_nil_r, map_app, <- !app_assoc.
        replace (96 * (i + 1))%nat with (96 + i * 96)%nat by lia.
        reflexivity.
      * constructor; [exact Hfirst|]. constructor; [exact Hlast|]. constructor.
      * cbn [concat]. rewrite app_nil_r. unfold first, last.
        rewrite <- map_app, slice_app by lia.
        replace (96 * (i + 1) + 96)%nat with (96 + i * 96 + 96)%nat by lia.
        destruct (Nat.ltb_spec n (96 + i * 96 + 96)); [reflexivity | lia].
    + (* more rounds, or the range ends on a multiple of 96 *)
      replace (96 + i * 96)%nat with (96 * S i)%nat by lia.
      destruct (IH (S i) (acc ++ map (embed_model Passage) first)
                  (with_trace (trace s ++ [EvEmbed Passage first]) s))
        as (batches & Hrun & Hall & Hcat).
      { intros Hj. lia. }
      rewrite bind_ret.
      exists (first :: batches). split; [|split].
      * rewrite Hrun. cbn [concat embed_events map trace with_trace].
        rewrite with_trace_twice, map_app, <- !app_assoc.
        replace (i + S j)%nat with (S i + j)%nat by lia. reflexivity.
      * constructor; assumption.
      * cbn [concat]. rewrite Hcat. unfold first.
        replace (96 + i * 96)%nat with (96 * S i)%nat by lia.
        rewrite <- map_app.
        replace (i + S j)%nat with (S i + j)%nat by lia.
        destruct j as [|j'].
        -- cbn [Nat.eqb negb andb]. rewrite Nat.add_0_r, slice_empty, app_nil_r.
           destruct (Nat.ltb_spec n (96 * S i + 96)); [lia | reflexivity].
        -- cbn [Nat.eqb negb andb]. rewrite slice_app; [reflexivity | lia |].
           destruct (Nat.ltb_spec n (96 * (S i + S j') + 96)); lia.
Qed.

(** What the block sends and returns, for every list of chunks. *)
Lemma embed_data_list_run (data_list : list datum) (s : state) :
  data_list <> [] ->
  exists batches,
    embed_data_list data_list s
    = (Return (map (embed_model Passage) (concat batches)),
       with_trace (trace s ++ embed_events batches) s)
    /\ Forall (fun b => 0 < List.length b <= 96)%nat batches
    /\ concat batches
       = map d_text
           (if (Nat.leb 96 (List.length data_list)
                && Nat.eqb (List.length data_list mod 96) 0)%bool
            then firstn (List.length data_list - 96) data_list
            else data_list).
Proof.
  intros Hsome.
  assert (Hpos : (0 < List.length data_list)%nat)
    by (destruct data_list; [congruence | cbn; lia]).
  unfold embed_data_list.
  set (n := List.length data_list) in *.
  destruct (Nat.ltb_spec n 96) as [Hsmall | Hbig].
  - assert (Hle : (0 < List.length (map d_text data_list) <= 96)%nat)
      by (rewrite length_map; fold n; lia).
    exists [map d_text data_list]. split; [|split].
    + rewrite (bind_Return _ _ _ _ _ (pc_embed_run Passage _ s Hle)).
      cbn [concat]. rewrite app_nil_r. reflexivity.
    + constructor; [exact Hle | constructor].
    + cbn [concat]. rewrite app_nil_r.
      destruct (Nat.leb_spec 96 n); [lia | reflexivity].
  - unfold py_range.
    set (m := ((n - 96 + 96 - 1) / 96)%nat).
    assert (Hm : (m = (n - 1) / 96)%nat) by (unfold m; f_equal; lia).
    destruct (embed_loop_run data_list m 0 [] s) as (batches & Hrun & Hall & Hcat).
    { intros _. fold n. rewrite Hm. cbn [Nat.add].
      pose proof (Nat.Div0.mul_div_le (n - 1) 96). lia. }
    exists batches. split; [|split].
    + change (96 * 0)%nat with 0%nat in Hrun.
      rewrite (bind_Return _ _ _ _ _ Hrun). reflexivity.
    + exact Hall.
    + rewrite Hcat. fold n. f_equal.
      change (96 * 0)%nat with 0%nat. rewrite slice_from_0.
      cbn [Nat.add].
      pose proof (Nat.div_mod_eq (n - 1) 96) as E1.
      pose proof (Nat.mod_upper_bound (n - 1) 96 ltac:(discriminate)) as B1.
      pose proof (Nat.div_mod_eq n 96) as E2.
      pose proof (Nat.mod_upper_bound n 96 ltac:(discriminate)) as B2.
      rewrite <- Hm in E1.
      generalize dependent ((n - 1) mod 96)%nat. intros r1 E1 B1.
      generalize dependent (n / 96)%nat. intros q E2.
      destruct (Nat.leb_spec 96 n); [|lia].
      cbn [andb].
      destruct (Nat.eqb_spec (n mod 96) 0) as [Hz | Hnz].
      * destruct (Nat.eqb_spec m 0).
        -- cbn [negb andb]. f_equal. lia.
        -- cbn [negb andb].
           destruct (Nat.ltb_spec n (96 * m + 96)); [lia | f_equal; lia].
      * destruct (Nat.eqb_spec m 0); [lia|].
        cbn [negb andb].
        destruct (Nat.ltb_spec n (96 * m + 96)); [|lia].
        apply firstn_all.
Qed.

(** A list without chunks is sent as it is, and refused. *)
Lemma embed_data_list_nothing (s : state) :
  embed_data_list [] s
  = (Raise EmptyInputsError, with_trace (trace s ++ [EvEmbed Passage []]) s).
Proof. reflexivity. Qed.

Lemma length_nonempty {A} (l : list A) : (0 < List.length l)%nat -> l <> [].
Proof. destruct l; [cbn; lia | discriminate]. Qed.

(** Lengths from 1 to 95 and lengths that are not a multiple of 96: one
    embedding per chunk, in order. *)
Lemma embed_data_list_complete (data_list : list datum) (s : state) :
  (0 < List.length data_list)%nat ->
  (List.length data_list < 96 \/ List.length data_list mod 96 <> 0)%nat ->
  fst (embed_data_list data_list s)
  = Return (map (embed_model Passage) (map d_text data_list)).
Proof.
  intros Hpos Hlen.
  destruct (embed_data_list_run data_list s (length_nonempty _ Hpos))
    as (batches & -> & _ & ->).
  cbn [fst]. do 2 f_equal.
  destruct (Nat.leb_spec 96 (List.length data_list)); [|reflexivity].
  destruct (Nat.eqb_spec (List.length data_list mod 96) 0); [lia | reflexivity].
Qed.

(** C1 (as the code behaves): when the number of chunks is a positive
    multiple of 96, [convert_vectors] embeds all chunks but the last 96;
    the final full batch is never sent, so the embeddings returned are
    fewer than the inputs. *)
Theorem embed_data_list_skips_last_full_batch
    (data_list : list datum) (k : nat) (s : state) :
  List.length data_list = (96 * S k)%nat ->
  fst (embed_data_list data_list s)
  = Return (map (embed_model Passage) (map d_text (firstn (96 * k) data_list))).
Proof.
  intros Hlen.
  destruct (embed_data_list_run data_list s) as (batches & -> & _ & ->).
  { apply length_nonempty. lia. }
  cbn [fst]. do 2 f_equal. rewrite Hlen.
  destruct (Nat.leb_spec 96 (96 * S k)); [|lia].
  destruct (Nat.eqb_spec ((96 * S k) mod 96) 0) as [_ | Hnz].
  - cbn [andb]. replace (96 * S k - 96)%nat with (96 * k)%nat by lia. reflexivity.
  - exfalso. apply Hnz. rewrite Nat.mul_comm. apply Nat.Div0.mod_mul.
Qed.

(* ------------------------------------------------------------------- *)
(** ** The store client, one call at a time                              *)
(* ------------------------------------------------------------------- *)

Lemma pc_has_index_run (name : string) (s : state) :
  pc_has_index name s
  = (Return (has (pc_indexes s) name),
     with_trace (trace s ++ [EvHasIndex name]) s).
Proof. reflexivity. Qed.

Lemma pc_create_index_run (name metric : string) (dimension : nat) (s : state) :
  pc_indexes s !! name = None ->
  pc_create_index name dimension metric s
  = (Return tt,
     with_indexes (<[name := mkIndex (pc_provision_delay s) ∅]> (pc_indexes s))
       (with_trace (trace s ++ [EvCreateIndex name dimension metric]) s)).
Proof.
  intros Hnone. unfold pc_create_index, bind, emit, modify, get. cbn.
  rewrite Hnone. reflexivity.
Qed.

Lemma pc_create_index_conflict (name metric : string) (dimension : nat) (s : state) :
  is_Some (pc_indexes s !! name) ->
  fst (pc_create_index name dimension metric s) = Raise (ConflictException name).
Proof.
  intros [i Hi]. unfold pc_create_index, bind, emit, modify, get. cbn.
  rewrite Hi. reflexivity.
Qed.

Lemma pc_describe_index_ready_run (name : string) (i : index_info) (s : state) :
  pc_indexes s !! name = Some i ->
  pc_describe_index_ready name s
  = (Return (Nat.eqb (pending i) 0),
     with_trace (trace s ++ [EvDescribeIndex name]) s).
Proof.
  intros Hi. unfold pc_describe_index_ready, bind, emit, modify, get. cbn.
  rewrite Hi. reflexivity.
Qed.

Lemma time_sleep_run (seconds : nat) (s : state) :
  time_sleep seconds s
  = (Return tt,
     with_indexes (tick (pc_indexes s))
       (with_trace (trace s ++ [EvSleep seconds]) s)).
Proof. reflexivity. Qed.

Lemma pc_delete_index_run (name : string) (s : state) :
  is_Some (pc_indexes s !! name) ->
  pc_delete_index name s
  = (Return tt,
     with_indexes (delete name (pc_indexes s))
       (with_trace (trace s ++ [EvDeleteIndex name]) s)).
Proof.
  intros [i Hi]. unfold pc_delete_index, bind, emit, modify, get. cbn.
  rewrite Hi. reflexivity.
Qed.

Lemma pc_delete_index_absent (name : string) (s : state) :
  pc_indexes s !! name = None ->
  pc_delete_index name s
  = (Raise (NotFoundException name),
     with_trace (trace s ++ [EvDeleteIndex name]) s).
Proof.
  intros Hnone. unfold pc_delete_index, bind, emit, modify, get. cbn.
  rewrite Hnone. reflexivity.
Qed.

Lemma pc_Index_run (name : string) (s : state) :
  is_Some (pc_indexes s !! name) -> pc_Index name s = (Return name, s).
Proof.
  intros [i Hi]. unfold pc_Index, bind, get. rewrite Hi. reflexivity.
Qed.

Lemma index_upsert_run (index namespace : string) (vectors : list record)
    (i : index_info) (s : state) :
  pc_indexes s !! index = Some i ->
  index_upsert index vectors namespace s
  = (Return tt,
     with_indexes
       (<[index := mkIndex (pending i)
                     (<[namespace := upsert_records vectors (records_of i namespace)]>
                        (namespaces i))]> (pc_indexes s))
       (with_trace (trace s ++ [EvUpsert index namespace (List.length vectors)]) s)).
Proof.
  intros Hi. unfold index_upsert, bind, emit, modify, get. cbn.
  rewrite Hi. reflexivity.
Qed.

Lemma index_query_run (index namespace : string) (v : vector) (top_k : nat)
    (i : index_info) (s : state) :
  pc_indexes s !! index = Some i ->
  index_query index namespace v top_k s
  = (Return (firstn top_k (rank v (records_of i namespace))),
     with_trace (trace s ++ [EvQuery index namespace top_k]) s).
Proof.
  intros Hi. unfold index_query, bind, emit, modify, get. cbn.
  rewrite Hi. reflexivity.
Qed.

Lemma self_name_run (name : string) (s : state) :
  self_index_name s = Some name -> self_name s = (Return name, s).
Proof. intros Hn. unfold self_name, bind, get. rewrite Hn. reflexivity. Qed.

Lemma tick_lookup (m : gmap string index_info) (name : string) :
  tick m !! name
  = (fun i => mkIndex (Nat.pred (pending i)) (namespaces i)) <$> (m !! name).
Proof. unfold tick. apply lookup_fmap. Qed.

Lemma tick_dom (m : gmap string index_info) : dom (tick m) = dom m.
Proof. unfold tick. apply dom_fmap_L. Qed.

Lemma iter_tick_dom (p : nat) (m : gmap string index_info) :
  dom (Nat.iter p tick m) = dom m.
Proof. induction p as [|p IH]; [reflexivity|]. cbn. rewrite tick_dom. exact IH. Qed.

Lemma iter_tick_lookup (p : nat) (m : gmap string index_info) (name : string) :
  Nat.iter p tick m !! name
  = (fun i => mkIndex (pending i - p) (namespaces i)) <$> (m !! name).
Proof.
  induction p as [|p IH].
  - cbn. destruct (m !! name) as [[]|]; cbn; [rewrite Nat.sub_0_r|]; reflexivity.
  - change (Nat.iter (S p) tick m) with (tick (Nat.iter p tick m)).
    rewrite tick_lookup, IH. destruct (m !! name) as [[]|]; cbn; [|reflexivity].
    do 2 f_equal. lia.
Qed.

(* ------------------------------------------------------------------- *)
(** ** [create_index]                                                    *)
(* ------------------------------------------------------------------- *)

Lemma poll_events_no_creation (name : string) (p : nat) :
  existsb is_creation (poll_events name p) = false.
Proof. induction p as [|p IH]; [reflexivity | exact IH]. Qed.

Lemma wait_until_ready_run (name : string) (p : nat) :
  forall (fuel : nat) (s : state) (i : index_info),
  pc_indexes s !! name = Some i ->
  pending i = p ->
  (p < fuel)%nat ->
  wait_until_ready fuel name s
  = (Return tt,
     with_indexes (Nat.iter p tick (pc_indexes s))
       (with_trace (trace s ++ poll_events name p) s)).
Proof.
  induction p as [|p IH]; intros fuel s i Hi Hp Hfuel;
    (destruct fuel as [|fuel]; [lia|]); cbn [wait_until_ready].
  - rewrite (bind_Return _ _ _ _ _ (pc_describe_index_ready_run name i s Hi)).
    rewrite Hp. reflexivity.
  - rewrite (bind_Return _ _ _ _ _ (pc_describe_index_ready_run name i s Hi)).
    rewrite Hp. cbn [Nat.eqb].
    rewrite (bind_Return _ _ _ _ _ (time_sleep_run 5 _)).
    rewrite (IH fuel _ (mkIndex p (namespaces i))); [| | reflexivity | lia].
    + cbn [pc_indexes trace with_indexes with_trace poll_events].
      rewrite <- !app_assoc. cbn [app].
      rewrite <- Nat.iter_succ_r. reflexivity.
    + cbn [pc_indexes with_indexes with_trace].
      rewrite tick_lookup, Hi. cbn. rewrite Hp. reflexivity.
Qed.

Lemma create_index_existing_run (fuel : nat) (name : string) (i : index_info)
    (s : state) :
  self_index_name s = Some name ->
  pc_indexes s !! name = Some i ->
  (pending i < fuel)%nat ->
  create_index fuel s
  = (Return tt,
     with_indexes (Nat.iter (pending i) tick (pc_indexes s))
       (with_trace (trace s ++ EvHasIndex name :: poll_events name (pending i)) s)).
Proof.
  intros Hname Hi Hfuel. unfold create_index.
  rewrite (bind_Return _ _ _ _ _ (self_name_run name s Hname)).
  rewrite (bind_Return _ _ _ _ _ (pc_has_index_run name s)).
  unfold has. rewrite Hi. cbn [negb]. rewrite bind_ret.
  rewrite (wait_until_ready_run name (pending i) fuel _ i); [| exact Hi | reflexivity | exact Hfuel].
  cbn [pc_indexes trace with_indexes with_trace].
  rewrite <- app_assoc. reflexivity.
Qed.

Lemma create_index_new_run (fuel : nat) (name : string) (s : state) :
  self_index_name s = Some name ->
  pc_indexes s !! name = None ->
  (pc_provision_delay s < fuel)%nat ->
  create_index fuel s
  = (Return tt,
     with_indexes
       (Nat.iter (pc_provision_delay s) tick
          (<[name := mkIndex (pc_provision_delay s) ∅]> (pc_indexes s)))
       (with_trace
          (trace s ++ EvHasIndex name :: EvCreateIndex name 1024 "cosine"
             :: poll_events name (pc_provision_delay s)) s)).
Proof.
  intros Hname Hnone Hfuel. unfold create_index.
  rewrite (bind_Return _ _ _ _ _ (self_name_run name s Hname)).
  rewrite (bind_Return _ _ _ _ _ (pc_has_index_run name s)).
  unfold has. rewrite Hnone. cbn [negb]. cbv iota.
  rewrite (bind_Return _ _ _ _ _
             (pc_create_index_run name "cosine" 1024
                (with_trace (trace s ++ [EvHasIndex name]) s) Hnone)).
  rewrite (wait_until_ready_run name (pc_provision_delay s) fuel _
             (mkIndex (pc_provision_delay s) ∅));
    [| apply lookup_insert_eq | reflexivity | exact Hfuel].
  cbn [pc_indexes trace with_indexes with_trace].
  rewrite <- !app_assoc. reflexivity.
Qed.

(** C4: [create_index] twice in a row succeeds both times; the second
    call asks the store whether the index exists, makes no creation
    call and leaves the set of indexes as it is.  When the index already
    exists before the first call, that call too consists of the
    existence test and the readiness poll only. *)
Theorem create_index_idempotent (fuel : nat) (name : string) (s : state) :
  self_index_name s = Some name ->
  (pc_provision_delay s < fuel)%nat ->
  (forall i, pc_indexes s !! name = Some i -> pending i < fuel)%nat ->
  exists s1 s2,
    create_index fuel s = (Return tt, s1)
    /\ create_index fuel s1 = (Return tt, s2)
    /\ pc_indexes s2 = pc_indexes s1
    /\ trace s2 = trace s1 ++ [EvHasIndex name; EvDescribeIndex name]
    /\ (forall i, pc_indexes s !! name = Some i ->
          trace s1 = trace s ++ EvHasIndex name :: poll_events name (pending i)
          /\ existsb is_creation (EvHasIndex name :: poll_events name (pending i)) = false
          /\ dom (pc_indexes s1) = dom (pc_indexes s)).
Proof.
  intros Hname Hdelay Hpending.
  destruct (pc_indexes s !! name) as [i|] eqn:Hi.
  - eexists _, _. split; [apply (create_index_existing_run fuel name i); auto|].
    split; [|split; [|split]].
    + eapply (create_index_existing_run fuel name (mkIndex 0 (namespaces i))).
      * exact Hname.
      * cbn. rewrite iter_tick_lookup, Hi. cbn. rewrite Nat.sub_diag. reflexivity.
      * cbn. lia.
    + reflexivity.
    + cbn. rewrite <- app_assoc. reflexivity.
    + intros i' [= <-]. split; [reflexivity|]. split.
      * cbn. apply poll_events_no_creation.
      * cbn. apply iter_tick_dom.
  - eexists _, _. split; [apply (create_index_new_run fuel name); auto|].
    split; [|split; [|split]].
    + eapply (create_index_existing_run fuel name (mkIndex 0 ∅)).
      * exact Hname.
      * cbn. rewrite iter_tick_lookup, lookup_insert_eq. cbn.
        rewrite Nat.sub_diag. reflexivity.
      * cbn. lia.
    + reflexivity.
    + cbn. rewrite <- app_assoc. reflexivity.
    + intros i' [=].
Qed.

(* ------------------------------------------------------------------- *)
(** ** [delete_index] and [validate_index]                               *)
(* ------------------------------------------------------------------- *)


Lemma delete_index_existing (name : string) (s : state) :
  name <> "" ->
  is_Some (pc_indexes s !! name) ->
  exists s',
    delete_index (JStr name) s = (Return tt, s')
    /\ pc_indexes s' = delete name (pc_indexes s)
    /\ pc_indexes s' !! name = None
    /\ trace s' = trace s ++ [EvDeleteIndex name].
Proof.
  intros Hne Hsome. unfold delete_index. cbn [truthy].
  destruct (String.eqb_spec name "") as [|_]; [contradiction|]. cbn [negb].
  rewrite (pc_delete_index_run name s Hsome).
  eexists. split; [reflexivity|]. cbn. split; [reflexivity|].
  split; [apply lookup_delete_eq | reflexivity].
Qed.


(** C5 (as the code behaves): a name that is not empty is handed to the
    store without asking whether such an index exists; when it does not,
    the store's "not found" propagates out of [delete_index]. *)
Theorem delete_index_absent_raises (name : string) (s : state) :
  name <> "" ->
  pc_indexes s !! name = None ->
  delete_index (JStr name) s
  = (Raise (NotFoundException name),
     with_trace (trace s ++ [EvDeleteIndex name]) s).
Proof.
  intros Hne Hnone. unfold delete_index. cbn [truthy].
  destruct (String.eqb_spec name "") as [|_]; [contradiction|]. cbn [negb].
  apply pc_delete_index_absent. exact Hnone.
Qed.

Lemma validate_index_present (hash_key : string) (s : state) :
  is_Some (pc_indexes s !! hash_key) ->
  validate_index hash_key s
  = (Return (JBool true), with_trace (trace s ++ [EvHasIndex hash_key]) s).
Proof.
  intros [i Hi]. unfold validate_index.
  rewrite (bind_Return _ _ _ _ _ (pc_has_index_run hash_key s)).
  unfold has. rewrite Hi. reflexivity.
Qed.

Lemma validate_index_absent (hash_key : string) (s : state) :
  pc_indexes s !! hash_key = None ->
  validate_index hash_key s
  = (Return JNull, with_trace (trace s ++ [EvHasIndex hash_key]) s).
Proof.
  intros Hnone. unfold validate_index.
  rewrite (bind_Return _ _ _ _ _ (pc_has_index_run hash_key s)).
  unfold has. rewrite Hnone. reflexivity.
Qed.

(** C6 (as the code behaves): for a name without an index the function
    runs off its end, so the caller receives [None], which is not the
    boolean [False]. *)
Theorem validate_index_absent_returns_None (hash_key : string) (s : state) :
  pc_indexes s !! hash_key = None ->
  fst (validate_index hash_key s) = Return JNull
  /\ fst (validate_index hash_key s) <> Return (JBool false).
Proof.
  intros Hnone. rewrite (validate_index_absent hash_key s Hnone).
  split; [reflexivity | discriminate].
Qed.

(* ------------------------------------------------------------------- *)
(** ** [get_results]                                                     *)
(* ------------------------------------------------------------------- *)

Lemma insert_ranked_length (q : vector) (r : record) (rs : list record) :
  List.length (insert_ranked q r rs) = S (List.length rs).
Proof.
  induction rs as [|r' rs IH]; [reflexivity|]. cbn [insert_ranked].
  destruct (Z.leb _ _); cbn [List.length]; [reflexivity | rewrite IH; reflexivity].
Qed.

Lemma rank_length (q : vector) (rs : list record) :
  List.length (rank q rs) = List.length rs.
Proof.
  induction rs as [|r rs IH]; [reflexivity|].
  cbn [rank fold_right]. fold (rank q rs).
  rewrite insert_ranked_length, IH. reflexivity.
Qed.

Lemma insert_ranked_perm (q : vector) (r : record) (rs : list record) :
  Permutation (insert_ranked q r rs) (r :: rs).
Proof.
  induction rs as [|r' rs IH]; [reflexivity|]. cbn [insert_ranked].
  destruct (Z.leb _ _); [reflexivity|].
  rewrite IH. apply perm_swap.
Qed.

Lemma rank_perm (q : vector) (rs : list record) : Permutation (rank q rs) rs.
Proof.
  induction rs as [|r rs IH]; [reflexivity|].
  cbn [rank fold_right]. fold (rank q rs).
  rewrite insert_ranked_perm, IH. reflexivity.
Qed.

Lemma insert_ranked_descending (q : vector) (r : record) (rs : list record) :
  descending q rs -> descending q (insert_ranked q r rs).
Proof.
  induction rs as [|r' rs IH]; intros Hd.
  - cbn. auto.
  - cbn [insert_ranked]. fold (score q r') (score q r).
    destruct (Z.leb_spec (score q r') (score q r)) as [Hle | Hgt].
    + cbn [descending]. split; [exact Hle | exact Hd].
    + destruct Hd as [Hhead Htail]. specialize (IH Htail).
      cbn [descending]. split; [|exact IH].
      destruct rs as [|r'' rs].
      * cbn [insert_ranked]. lia.
      * cbn [insert_ranked] in *. fold (score q r'') (score q r) in *.
        destruct (Z.leb_spec (score q r'') (score q r)); lia.
Qed.

Lemma rank_descending (q : vector) (rs : list record) : descending q (rank q rs).
Proof.
  induction rs as [|r rs IH]; [exact I|].
  cbn [rank fold_right]. fold (rank q rs).
  apply insert_ranked_descending, IH.
Qed.

Lemma descending_firstn (q : vector) (n : nat) (rs : list record) :
  descending q rs -> descending q (firstn n rs).
Proof.
  revert n. induction rs as [|r rs IH]; intros n Hd.
  - destruct n; exact I.
  - destruct n as [|n]; [exact I|]. destruct Hd as [Hhead Htail].
    cbn [firstn]. cbn [descending]. split; [|apply IH, Htail].
    destruct rs as [|r' rs]; [destruct n; exact I|].
    destruct n as [|n]; [exact I | exact Hhead].
Qed.

(** C7: [get_results] returns the [text] of each match the store gives
    for [top_k=10], in the store's order (scores never increasing): at
    most 10 snippets and never more than the namespace holds. *)
Theorem get_results_top_10 (index namespace query : string) (i : index_info)
    (s : state) :
  self_index_name s = Some namespace ->
  pc_indexes s !! index = Some i ->
  let matches :=
    firstn 10 (rank (embed_model Query query) (records_of i namespace)) in
  fst (get_results index query s) = Return (map rec_text matches)
  /\ (List.length (map rec_text matches) <= 10)%nat
  /\ (List.length (map rec_text matches) <= List.length (records_of i namespace))%nat
  /\ descending (embed_model Query query) matches
  /\ (forall r, In r matches -> In r (records_of i namespace)).
Proof.
  intros Hname Hi matches. split; [|split; [|split; [|split]]].
  - unfold get_results.
    rewrite (bind_Return _ _ _ _ _
               (pc_embed_run Query [query] s ltac:(cbn; lia))).
    cbn [map]. cbv iota.
    rewrite (bind_Return _ _ _ _ _
               (self_name_run namespace
                  (with_trace (trace s ++ [EvEmbed Query [query]]) s) Hname)).
    rewrite (bind_Return _ _ _ _ _
               (index_query_run index namespace _ 10 i
                  (with_trace (trace s ++ [EvEmbed Query [query]]) s) Hi)).
    reflexivity.
  - rewrite length_map. unfold matches. rewrite length_take. lia.
  - rewrite length_map. unfold matches. rewrite length_take, rank_length. lia.
  - apply descending_firstn, rank_descending.
  - intros r Hr. unfold matches in Hr.
    eapply Permutation_in; [apply rank_perm|].
    rewrite <- (firstn_skipn 10). apply in_or_app. left. exact Hr.
Qed.

(* ------------------------------------------------------------------- *)
(** ** [load_vectors]                                                    *)
(* ------------------------------------------------------------------- *)

Lemma make_records_length (data_list : list datum) (embeddings : list vector) :
  List.length (make_records data_list embeddings)
  = Nat.min (List.length data_list) (List.length embeddings).
Proof. unfold make_records. rewrite length_map. apply length_combine. Qed.

Lemma make_records_lookup (data_list : list datum) :
  forall (embeddings : list vector) (k : nat) (d : datum) (e : vector),
  data_list !! k = Some d ->
  embeddings !! k = Some e ->
  make_records data_list embeddings !! k = Some (mkRecord (d_id d) e (d_text d)).
Proof.
  induction data_list as [|d0 data_list IH]; intros embeddings k d e Hd He.
  - discriminate.
  - destruct embeddings as [|e0 embeddings]; [discriminate|].
    destruct k as [|k].
    + cbn in Hd, He. injection Hd as ->. injection He as ->. reflexivity.
    + cbn in Hd, He. apply (IH embeddings k d e Hd He).
Qed.

Lemma load_vectors_run (data_list : list datum) (embeddings : list vector)
    (name : string) (i : index_info) (s : state) :
  self_index_name s = Some name ->
  pc_indexes s !! name = Some i ->
  load_vectors data_list embeddings s
  = (Return name,
     with_indexes
       (tick (<[name := mkIndex (pending i)
                 (<[name := upsert_records (make_records data_list embeddings)
                              (records_of i name)]> (namespaces i))]>
                (pc_indexes s)))
       (with_trace
          (trace s ++ [EvUpsert name name
                         (List.length (make_records data_list embeddings));
                       EvSleep 20]) s)).
Proof.
  intros Hname Hi. unfold load_vectors.
  rewrite (bind_Return _ _ _ _ _ (self_name_run name s Hname)).
  rewrite (bind_Return _ _ _ _ _ (pc_Index_run name s ltac:(eauto))).
  rewrite (bind_Return _ _ _ _ _ (index_upsert_run name name _ i s Hi)).
  rewrite (bind_Return _ _ _ _ _ (time_sleep_run 20 _)).
  cbn. rewrite <- app_assoc. reflexivity.
Qed.

(** C10: [load_vectors] pairs the lists position by position and stops
    at the end of the shorter one: the single upsert carries
    [min (len data_list) (len embeddings)] records, the k-th made of the
    k-th chunk's id and text and the k-th embedding, and no exception is
    raised for the chunks left over. *)
Theorem load_vectors_zip (data_list : list datum) (embeddings : list vector)
    (name : string) (i : index_info) (s : state) :
  self_index_name s = Some name ->
  pc_indexes s !! name = Some i ->
  exists s',
    load_vectors data_list embeddings s = (Return name, s')
    /\ trace s'
       = trace s ++ [EvUpsert name name
                       (Nat.min (List.length data_list) (List.length embeddings));
                     EvSleep 20]
    /\ (exists i', pc_indexes s' !! name = Some i'
          /\ records_of i' name
             = upsert_records (make_records data_list embeddings) (records_of i name))
    /\ List.length (make_records data_list embeddings)
       = Nat.min (List.length data_list) (List.length embeddings)
    /\ (forall k d e, data_list !! k = Some d -> embeddings !! k = Some e ->
          make_records data_list embeddings !! k
          = Some (mkRecord (d_id d) e (d_text d))).
Proof.
  intros Hname Hi. eexists. split; [apply (load_vectors_run _ _ name i s Hname Hi)|].
  split; [|split; [|split]].
  - cbn. rewrite make_records_length. reflexivity.
  - eexists. split.
    + cbn. rewrite tick_lookup, lookup_insert_eq. reflexivity.
    + unfold records_of at 1. cbn. rewrite lookup_insert_eq. reflexivity.
  - apply make_records_length.
  - apply make_records_lookup.
Qed.

(* ------------------------------------------------------------------- *)
(** ** [get_hash]                                                        *)
(* ------------------------------------------------------------------- *)

Lemma get_hash_run (s : state) :
  get_hash s
  = (Return (fingerprint (fst (file_read (self_uploaded_file s)))),
     with_self (snd (file_read (self_uploaded_file s)))
       (Some (fingerprint (fst (file_read (self_uploaded_file s))))) s).
Proof. reflexivity. Qed.

(** C2: two calls of [get_hash] that read the same bytes return the same
    fingerprint and store the same index name, whatever else differs
    between the two runs. *)
Theorem get_hash_deterministic (s1 s2 : state) :
  fst (file_read (self_uploaded_file s1)) = fst (file_read (self_uploaded_file s2)) ->
  fst (get_hash s1) = fst (get_hash s2)
  /\ self_index_name (snd (get_hash s1)) = self_index_name (snd (get_hash s2)).
Proof.
  intros Hbytes. rewrite !get_hash_run.
  cbn [fst snd self_index_name with_self]. rewrite Hbytes. auto.
Qed.

(** A second [get_hash] on the same file object, with no [seek(0)] in
    between, reads nothing and returns the fingerprint of the empty
    byte string. *)
Lemma get_hash_second_read (s : state) :
  fst (get_hash (snd (get_hash s))) = Return (fingerprint []).
Proof.
  rewrite !get_hash_run. cbn. rewrite skipn_all2; [reflexivity | lia].
Qed.

(** C3: the fingerprint [get_hash] returns is made of lowercase letters,
    digits and '-' only; it contains neither '_' nor '='. *)
Theorem get_hash_store_safe (s : state) :
  exists name s',
    get_hash s = (Return name, s')
    /\ self_index_name s' = Some name
    /\ forallb store_safe (list_ascii_of_string name) = true
    /\ ~ In "_"%char (list_ascii_of_string name)
    /\ ~ In "="%char (list_ascii_of_string name).
Proof.
  eexists _, _. split; [apply get_hash_run|]. split; [reflexivity|].
  pose proof (fingerprint_safe (fst (file_read (self_uploaded_file s)))) as Hsafe.
  split; [exact Hsafe|].
  rewrite forallb_forall in Hsafe.
  split; intros Hin; apply Hsafe in Hin; discriminate.
Qed.

(* ------------------------------------------------------------------- *)
(** ** [convert_vectors]                                                 *)
(* ------------------------------------------------------------------- *)



(* ------------------------------------------------------------------- *)
(** ** The handler                                                       *)
(* ------------------------------------------------------------------- *)

Lemma get_results_run (index namespace query : string) (i : index_info)
    (s : state) :
  self_index_name s = Some namespace ->
  pc_indexes s !! index = Some i ->
  get_results index query s
  = (Return (map rec_text
               (firstn 10 (rank (embed_model Query query) (records_of i namespace)))),
     with_trace (trace s ++ [EvEmbed Query [query]; EvQuery index namespace 10]) s).
Proof.
  intros Hname Hi. unfold get_results.
  rewrite (bind_Return _ _ _ _ _ (pc_embed_run Query [query] s ltac:(cbn; lia))).
  cbn [map]. cbv iota.
  rewrite (bind_Return _ _ _ _ _
             (self_name_run namespace
                (with_trace (trace s ++ [EvEmbed Query [query]]) s) Hname)).
  rewrite (bind_Return _ _ _ _ _
             (index_query_run index namespace _ 10 i
                (with_trace (trace s ++ [EvEmbed Query [query]]) s) Hi)).
  cbn. rewrite <- app_assoc. reflexivity.
Qed.

Lemma enhance_query_run (query : string) (s : state) :
  enhance_query query s
  = (Return (generate_content (EnhancePrompt query)),
     with_trace (trace s ++ [EvGenerate (EnhancePrompt query)]) s).
Proof. reflexivity. Qed.

Lemma get_summary_run (results query : string) (s : state) :
  get_summary results query s
  = (Return (generate_content (SummaryPrompt results query)),
     with_trace (trace s ++ [EvGenerate (SummaryPrompt results query)]) s).
Proof. reflexivity. Qed.

Lemma json_dump_const_run (v : json) (s : state) :
  json_dump_const v s = (Return tt, with_const_json (Some (JsonText v)) s).
Proof. reflexivity. Qed.

(** The path taken when the index of the uploaded document exists. *)
Lemma summary_btn_reuse (fuel : nat) (query : string) (i : index_info) (s : state) :
  let name := fingerprint (fst (file_read (self_uploaded_file s))) in
  let enhanced := generate_content (EnhancePrompt query) in
  pc_indexes s !! name = Some i ->
  exists s',
    summary_btn fuel query s
    = (Return (generate_content (SummaryPrompt (snippets i name enhanced) enhanced)), s')
    /\ const_json s' = Some (JsonText (pointer_of name))
    /\ pc_indexes s' = pc_indexes s
    /\ trace s'
       = trace s ++ EvHasIndex name :: EvGenerate (EnhancePrompt query)
           :: answer_events name query enhanced (snippets i name enhanced).
Proof.
  intros name enhanced Hi. unfold summary_btn.
  rewrite (bind_Return _ _ _ _ _ (get_hash_run s)). fold name.
  erewrite bind_Return by (apply validate_index_present; cbn; eauto).
  rewrite (bind_Return _ _ _ _ _ (enhance_query_run query _)). fold enhanced.
  cbn [truthy negb]. cbv iota.
  erewrite bind_Return by (apply pc_Index_run; cbn; eauto).
  rewrite (bind_Return _ _ _ _ _ (json_dump_const_run _ _)).
  rewrite (bind_Return _ _ _ _ _ (emit_run _ _)).
  erewrite bind_Return by (apply (get_results_run name name enhanced i); [reflexivity | exact Hi]).
  rewrite (bind_Return _ _ _ _ _ (get_summary_run _ _ _)).
  rewrite (bind_Return _ _ _ _ _ (emit_run _ _)).
  eexists. split; [reflexivity|]. cbn.
  split; [reflexivity|]. split; [reflexivity|].
  rewrite <- !app_assoc. reflexivity.
Qed.



Lemma json_load_const_malformed (raw : string) (s : state) :
  const_json s = Some (OtherText raw) ->
  json_load_const s = (Raise JSONDecodeError, s).
Proof. intros E. unfold json_load_const. rewrite bind_get, E. reflexivity. Qed.



Lemma json_load_const_undecodable (s : state) :
  const_json s = Some UndecodableBytes ->
  json_load_const s = (Raise UnicodeDecodeError, s).
Proof. intros E. unfold json_load_const. rewrite bind_get, E. reflexivity. Qed.








End Proofs.

(* ===================================================================== *)
(** * The theorems at concrete inputs                                      *)
(* ===================================================================== *)

(** No chunk: the call is refused; 96 and 192 chunks: 96 embeddings are
    missing. *)
Example embedding_counts_at_the_boundaries :
  map embedding_count [0; 1; 95; 96; 97; 191; 192; 193]%nat
  = [None; Some 1; Some 95; Some 0; Some 97; Some 191; Some 96; Some 193]%nat.
Proof. vm_compute. reflexivity. Qed.

Lemma embed_data_list_skips_last_full_batch_witness :
  List.length (demo_data 96) = (96 * 1)%nat
  /\ fst (embed_data_list (demo_data 96) (demo_state [] None))
     = Return (map (embed_model Passage) (map d_text (firstn (96 * 0) (demo_data 96)))).
Proof.
  split; [reflexivity|].
  apply (embed_data_list_skips_last_full_batch (demo_data 96) 0 (demo_state [] None)).
  reflexivity.
Defined.

Lemma get_hash_deterministic_witness :
  fst (file_read (self_uploaded_file (demo_state (bytes_of_string "abc") None)))
  = fst (file_read (self_uploaded_file shifted_upload_state))
  /\ fst (get_hash (demo_state (bytes_of_string "abc") None))
     = fst (get_hash shifted_upload_state).
Proof.
  split; [reflexivity|].
  apply (get_hash_deterministic (demo_state (bytes_of_string "abc") None)
           shifted_upload_state).
  reflexivity.
Defined.

Lemma create_index_idempotent_witness :
  exists s1 s2,
    create_index 5 (named_state "doc" ∅) = (Return tt, s1)
    /\ create_index 5 s1 = (Return tt, s2)
    /\ pc_indexes s2 = pc_indexes s1
    /\ trace s2 = trace s1 ++ [EvHasIndex "doc"; EvDescribeIndex "doc"].
Proof.
  destruct (create_index_idempotent 5 "doc" (named_state "doc" ∅))
    as (s1 & s2 & H1 & H2 & H3 & H4 & _).
  - reflexivity.
  - cbn. lia.
  - intros i. unfold named_state. cbn [pc_indexes]. rewrite lookup_empty. discriminate.
  - exists s1, s2. auto.
Defined.

Lemma delete_index_absent_raises_witness :
  "ghost" <> ""
  /\ pc_indexes (named_state "doc" ∅) !! "ghost" = None
  /\ fst (delete_index (JStr "ghost") (named_state "doc" ∅))
     = Raise (NotFoundException "ghost").
Proof.
  split; [discriminate|]. split; [apply lookup_empty|].
  rewrite (delete_index_absent_raises "ghost" (named_state "doc" ∅));
    [reflexivity | discriminate | apply lookup_empty].
Defined.

Lemma validate_index_absent_returns_None_witness :
  pc_indexes (named_state "doc" ∅) !! "ghost" = None
  /\ fst (validate_index "ghost" (named_state "doc" ∅)) = Return JNull.
Proof.
  split; [apply lookup_empty|].
  apply (validate_index_absent_returns_None "ghost" (named_state "doc" ∅)).
  apply lookup_empty.
Defined.

Lemma get_results_top_10_witness :
  fst (get_results "doc" "aaaa" (named_state "doc" {["doc" := twelve_index]}))
  = Return (map rec_text
              (firstn 10 (rank (embed_model Query "aaaa")
                            (records_of twelve_index "doc"))))
  /\ List.length (records_of twelve_index "doc") = 12%nat.
Proof.
  destruct (get_results_top_10 "doc" "doc" "aaaa" twelve_index
              (named_state "doc" {["doc" := twelve_index]}))
    as (Hrun & _).
  - reflexivity.
  - apply lookup_singleton_eq.
  - split; [exact Hrun | reflexivity].
Defined.

Example get_results_on_twelve_records :
  fst (get_results "doc" "aaaa" (named_state "doc" {["doc" := twelve_index]}))
  = Return ["aaaa"; "aaa"; "aaaaa"; "aa"; "aaaaaa"; "a"; "aaaaaaa";
            "aaaaaaaa"; "aaaaaaaaa"; "aaaaaaaaaa"].
Proof. vm_compute. reflexivity. Qed.

Lemma load_vectors_zip_witness :
  exists s',
    load_vectors (demo_data 3) two_embeddings
      (named_state "doc" {["doc" := @mkIndex demo_services 0 ∅]})
    = (Return "doc", s')
    /\ trace s' = [EvUpsert "doc" "doc" 2; EvSleep 20].
Proof.
  destruct (load_vectors_zip (demo_data 3) two_embeddings "doc"
              (@mkIndex demo_services 0 ∅)
              (named_state "doc" {["doc" := @mkIndex demo_services 0 ∅]}))
    as (s' & Hrun & Htrace & _).
  - reflexivity.
  - apply lookup_singleton_eq.
  - exists s'. split; [exact Hrun | exact Htrace].
Defined.




(** The same with a [const.json] that is not text. *)
Example undecodable_cache_file_is_fatal :
  let s := demo_state (bytes_of_string "abcd") (Some UndecodableBytes) in
  fst (summary_btn 5 "cotton" s) = Raise UnicodeDecodeError
  /\ const_json (snd (summary_btn 5 "cotton" s)) = Some UndecodableBytes.
Proof. vm_compute. split; reflexivity. Qed.

(** Of a key written twice in [const.json], [data.get] sees the last
    value. *)
Example dict_get_repeated_key :
  fst (dict_get (JObj [("name", JStr "first"); ("name", JStr "last")]) "name"
         (demo_state [] None))
  = Return (JStr "last").
Proof. reflexivity. Qed.

(* ===================================================================== *)
(** * Further properties of [VectorDB]                                     *)
(* ===================================================================== *)

Lemma append_Vec_inj (x y : string) : "Vec" +:+ x = "Vec" +:+ y -> x = y.
Proof. cbn. intros E. injection E as E. exact E. Qed.

Lemma number_docs_texts (docs : list string) :
  forall cnt, map d_text (number_docs cnt docs) = docs.
Proof.
  induction docs as [|doc docs IH]; intros cnt; [reflexivity|].
  cbn. rewrite IH. reflexivity.
Qed.

Lemma number_docs_length (docs : list string) :
  forall cnt, List.length (number_docs cnt docs) = List.length docs.
Proof.
  induction docs as [|doc docs IH]; intros cnt; [reflexivity|].
  cbn. rewrite IH. reflexivity.
Qed.

Lemma number_docs_lookup (docs : list string) :
  forall cnt k doc,
  docs !! k = Some doc ->
  number_docs cnt docs !! k = Some (mkDatum ("Vec" +:+ pretty (cnt + k)%nat) doc).
Proof.
  induction docs as [|doc0 docs IH]; intros cnt k doc Hk; [discriminate|].
  destruct k as [|k].
  - cbn in Hk. injection Hk as ->. cbn [number_docs lookup list_lookup].
    rewrite Nat.add_0_r. reflexivity.
  - cbn in Hk. cbn [number_docs]. cbn [lookup list_lookup].
    change (number_docs (S cnt) docs !! k
            = Some (mkDatum ("Vec" +:+ pretty (cnt + S k)%nat) doc)).
    rewrite (IH (S cnt) k doc Hk).
    replace (cnt + S k)%nat with (S cnt + k)%nat by lia. reflexivity.
Qed.

Lemma number_docs_ids_from (docs : list string) :
  forall cnt id,
  In id (map d_id (number_docs cnt docs)) ->
  exists j, (cnt <= j)%nat /\ id = "Vec" +:+ pretty j.
Proof.
  induction docs as [|doc docs IH]; intros cnt id Hin; [destruct Hin|].
  cbn in Hin. destruct Hin as [<- | Hin].
  - exists cnt. split; [lia | reflexivity].
  - destruct (IH (S cnt) id Hin) as (j & Hj & ->). exists j. split; [lia | reflexivity].
Qed.

Lemma number_docs_NoDup (docs : list string) :
  forall cnt, List.NoDup (map d_id (number_docs cnt docs)).
Proof.
  induction docs as [|doc docs IH]; intros cnt; [constructor|].
  cbn. constructor; [|apply IH].
  intros Hin. apply number_docs_ids_from in Hin as (j & Hj & E).
  apply append_Vec_inj in E. apply (inj pretty) in E. lia.
Qed.

(** X3: [data_list] keeps the chunks in document order and numbers them
    from 1: the k-th entry (from 0) has id "Vec" followed by k+1 in
    decimal; no two entries share an id. *)
Theorem data_list_ids_are_sequential (docs : list string) :
  map d_text (number_docs 1 docs) = docs
  /\ List.NoDup (map d_id (number_docs 1 docs))
  /\ (forall k doc, docs !! k = Some doc ->
        number_docs 1 docs !! k = Some (mkDatum ("Vec" +:+ pretty (S k)) doc)).
Proof.
  split; [apply number_docs_texts|]. split; [apply number_docs_NoDup|].
  intros k doc Hk. apply (number_docs_lookup docs 1 k doc Hk).
Qed.

Section More.
Context {svc : Services}.

Lemma embedded_prefix_is_prefix (data_list : list datum) :
  exists rest,
    data_list = embedded_prefix data_list ++ rest
    /\ (rest = [] \/ List.length rest = 96%nat).
Proof.
  unfold embedded_prefix.
  destruct (Nat.leb_spec 96 (List.length data_list)) as [Hbig | Hsmall];
    [destruct (Nat.eqb_spec (List.length data_list mod 96) 0) as [Hz | Hnz]|]; cbn [andb].
  - exists (skipn (List.length data_list - 96) data_list). split.
    + symmetry. apply firstn_skipn.
    + right. rewrite length_skipn. lia.
  - exists []. rewrite app_nil_r. auto.
  - exists []. rewrite app_nil_r. auto.
Qed.

(** X1: for 1 to 95 chunks, and for any number of chunks that is not a
    multiple of 96, the embedding block of [convert_vectors] returns
    one embedding per chunk in chunk order; the texts of the batches it
    sends, put end to end, are the chunk texts, and every batch has
    between 1 and 96 of them. *)
Theorem embed_data_list_one_per_chunk (data_list : list datum) (s : state) :
  (0 < List.length data_list)%nat ->
  (List.length data_list < 96 \/ List.length data_list mod 96 <> 0)%nat ->
  exists batches,
    embed_data_list data_list s
    = (Return (map (embed_model Passage) (map d_text data_list)),
       with_trace (trace s ++ embed_events batches) s)
    /\ concat batches = map d_text data_list
    /\ Forall (fun b => 0 < List.length b <= 96)%nat batches.
Proof.
  intros Hpos Hlen.
  destruct (embed_data_list_run data_list s (length_nonempty _ Hpos))
    as (batches & Hrun & Hall & Hcat).
  assert (Hall' : concat batches = map d_text data_list).
  { rewrite Hcat. f_equal.
    destruct (Nat.leb_spec 96 (List.length data_list)); [|reflexivity].
    destruct (Nat.eqb_spec (List.length data_list mod 96) 0); [lia | reflexivity]. }
  exists batches. split; [|split; [exact Hall' | exact Hall]].
  rewrite Hrun, Hall'. reflexivity.
Qed.

(** X2: for every list of at least one chunk, the embedding block sends
    only batches of 1 to 96 texts and so is never refused by the
    service; the only calls it makes are embedding calls; the embeddings
    it returns are those of a prefix of the chunks, and what is left out
    is nothing or exactly 96 chunks. *)
Theorem embed_data_list_respects_batch_limit (data_list : list datum) (s : state) :
  data_list <> [] ->
  exists batches rest,
    embed_data_list data_list s
    = (Return (map (embed_model Passage) (concat batches)),
       with_trace (trace s ++ embed_events batches) s)
    /\ Forall (fun b => 0 < List.length b <= batch_limit)%nat batches
    /\ map d_text data_list = concat batches ++ map d_text rest
    /\ (rest = [] \/ List.length rest = 96%nat).
Proof.
  intros Hsome.
  destruct (embed_data_list_run data_list s Hsome) as (batches & Hrun & Hall & Hcat).
  destruct (embedded_prefix_is_prefix data_list) as (rest & Hsplit & Hrest).
  exists batches, rest. split; [exact Hrun|]. split; [exact Hall|].
  split; [|exact Hrest].
  rewrite Hcat. fold (embedded_prefix data_list).
  rewrite <- map_app, <- Hsplit. reflexivity.
Qed.

(* --------------------------------------------------------------------- *)
(** ** [create_index]                                                      *)
(* --------------------------------------------------------------------- *)

Lemma iter_tick_namespaces (p : nat) (m : gmap string index_info) (name : string) :
  namespaces <$> (Nat.iter p tick m !! name) = namespaces <$> (m !! name).
Proof. rewrite iter_tick_lookup. destruct (m !! name); reflexivity. Qed.

(** X4: when [create_index] returns, the index named by [self.index_name]
    exists and is ready; it was created by exactly one creation call
    (dimension 1024, metric cosine) if it did not exist and by none if it
    did; an existing index keeps its records, a new one has none, and no
    other index gains or loses records. *)
Theorem create_index_postcondition (fuel : nat) (name : string) (s : state) :
  self_index_name s = Some name ->
  (pc_provision_delay s < fuel)%nat ->
  (forall i, pc_indexes s !! name = Some i -> pending i < fuel)%nat ->
  exists s' new,
    create_index fuel s = (Return tt, s')
    /\ trace s' = trace s ++ new
    /\ filter is_creation new
       = (if has (pc_indexes s) name then []
          else [EvCreateIndex name 1024 "cosine"])
    /\ (exists i', pc_indexes s' !! name = Some i'
          /\ pending i' = 0%nat
          /\ namespaces i'
             = match pc_indexes s !! name with
               | Some i => namespaces i
               | None => ∅
               end)
    /\ (forall other, other <> name ->
          namespaces <$> (pc_indexes s' !! other)
          = namespaces <$> (pc_indexes s !! other)).
Proof.
  intros Hname Hdelay Hpending. unfold has.
  assert (Hfilter : forall p, filter is_creation (poll_events name p) = []).
  { induction p as [|p IH]; [reflexivity | exact IH]. }
  destruct (pc_indexes s !! name) as [i|] eqn:Hi.
  - eexists _, _. split; [apply (create_index_existing_run fuel name i); auto|].
    cbn [trace pc_indexes with_indexes with_trace].
    split; [reflexivity|]. split; [exact (Hfilter (pending i))|]. split.
    + eexists. rewrite iter_tick_lookup, Hi. cbn [fmap option_fmap option_map].
      split; [reflexivity|]. cbn [pending namespaces].
      split; [apply Nat.sub_diag | reflexivity].
    + intros other _. apply iter_tick_namespaces.
  - eexists _, _. split; [apply (create_index_new_run fuel name); auto|].
    cbn [trace pc_indexes with_indexes with_trace].
    split; [reflexivity|]. split.
    { cbn. rewrite Hfilter. reflexivity. }
    split.
    + eexists. rewrite iter_tick_lookup, lookup_insert_eq. cbn [fmap option_fmap option_map].
      split; [reflexivity|]. cbn [pending namespaces].
      split; [apply Nat.sub_diag | reflexivity].
    + intros other Hother. rewrite iter_tick_namespaces, lookup_insert_ne by congruence.
      reflexivity.
Qed.

(* --------------------------------------------------------------------- *)
(** ** [convert_vectors], end to end                                       *)
(* --------------------------------------------------------------------- *)






(* --------------------------------------------------------------------- *)
(** ** Calling the methods before [get_hash]                               *)
(* --------------------------------------------------------------------- *)



(* --------------------------------------------------------------------- *)
(** ** [get_hash], once more                                               *)
(* --------------------------------------------------------------------- *)

(** X7: the name [get_hash] returns always has 43 characters. *)
Theorem get_hash_returns_43_characters (s : state) :
  exists name s',
    get_hash s = (Return name, s')
    /\ String.length name = 43%nat
    /\ self_uploaded_file s'
       = mkUploadedFile (file_buffer (self_uploaded_file s))
           (Nat.max (file_pos (self_uploaded_file s))
                    (List.length (file_buffer (self_uploaded_file s)))).
Proof.
  eexists _, _. split; [apply get_hash_run|].
  split; [apply fingerprint_length | reflexivity].
Qed.

(** X8: [get_hash] leaves the upload at its end, so a second [get_hash]
    on the same object hashes no bytes: it returns the fingerprint of the
    empty string and makes that the index name, whatever the file
    holds.  [chunk] reads the buffer, not the stream, and still sees the
    whole document. *)
Theorem get_hash_twice_hashes_nothing (s : state) :
  exists name s1 s2,
    get_hash s = (Return name, s1)
    /\ get_hash s1 = (Return (fingerprint []), s2)
    /\ self_index_name s2 = Some (fingerprint [])
    /\ fst (chunk s2) = Return (split_pdf (file_buffer (self_uploaded_file s))).
Proof.
  eexists _, _, _. split; [apply get_hash_run|]. split.
  - rewrite get_hash_run. cbn [self_uploaded_file with_self file_read fst snd
                                 file_pos file_buffer].
    rewrite skipn_all2 by lia. reflexivity.
  - split; reflexivity.
Qed.

(* --------------------------------------------------------------------- *)
(** ** The handler, case by case                                           *)
(* --------------------------------------------------------------------- *)

Lemma summary_btn_parts (fuel : nat) (query : string) :
  summary_btn fuel query
  = (let* hash_value := get_hash in
     let* is_index_exist := validate_index hash_value in
     let* enhanced_query := enhance_query query in
     let* index :=
       if negb (truthy is_index_exist) then
         let* index := convert_vectors fuel in
         evict_cached >> ret index
       else pc_Index hash_value in
     answer hash_value query enhanced_query index).
Proof. reflexivity. Qed.














Lemma convert_vectors_without_chunks (fuel : nat) (s : state) :
  split_pdf (getbuffer (self_uploaded_file s)) = [] ->
  convert_vectors fuel s
  = (Raise EmptyInputsError, with_trace (trace s ++ [EvChunk; EvEmbed Passage []]) s).
Proof.
  intros Hnone. unfold convert_vectors, chunk.
  rewrite bind_assoc, (bind_Return _ _ _ _ _ (emit_run EvChunk s)).
  rewrite bind_assoc, bind_get, bind_ret.
  cbn [self_uploaded_file with_trace]. rewrite Hnone. cbn [number_docs].
  rewrite (bind_Raise _ _ _ _ _ (embed_data_list_nothing _)).
  cbn [trace with_trace]. rewrite with_trace_twice, <- app_assoc. reflexivity.
Qed.

(** X17: a document the splitter returns no chunk for cannot be built.
    When it has no index, the handler chunks it, sends the embedding
    service one request without inputs and stops on the refusal: no
    index is created or deleted and [const.json] is neither read nor
    written. *)
Theorem document_without_chunks_is_refused (fuel : nat) (query : string) (s : state) :
  let name := fingerprint (fst (file_read (self_uploaded_file s))) in
  split_pdf (getbuffer (self_uploaded_file s)) = [] ->
  pc_indexes s !! name = None ->
  exists s',
    summary_btn fuel query s = (Raise EmptyInputsError, s')
    /\ pc_indexes s' = pc_indexes s
    /\ const_json s' = const_json s
    /\ trace s'
       = trace s ++ [EvHasIndex name; EvGenerate (EnhancePrompt query);
                     EvChunk; EvEmbed Passage []].
Proof.
  intros name Hnochunks Hnone. rewrite summary_btn_parts.
  rewrite (bind_Return _ _ _ _ _ (get_hash_run s)). fold name.
  erewrite bind_Return by (apply validate_index_absent; cbn; eauto).
  rewrite (bind_Return _ _ _ _ _ (enhance_query_run query _)).
  cbn [truthy negb]. cbv iota.
  erewrite bind_Raise; cycle 1.
  { apply bind_Raise. apply convert_vectors_without_chunks. exact Hnochunks. }
  eexists. split; [reflexivity|].
  cbn [pc_indexes const_json trace with_trace with_self].
  split; [reflexivity|]. split; [reflexivity|].
  rewrite <- !app_assoc. reflexivity.
Qed.



(** X13: when the index of the uploaded document exists, the handler
    neither reads [const.json] nor polls: whatever the file held before
    (nothing, another name, text that is not JSON) it is overwritten with
    the document's fingerprint, the store is left as it is, and the text
    returned is the model's summary of the at most 10 best snippets,
    joined by newlines, for the enhanced query. *)
Theorem reuse_path_overwrites_any_pointer (fuel : nat) (query : string)
    (i : index_info) (s : state) :
  let name := fingerprint (fst (file_read (self_uploaded_file s))) in
  let enhanced := generate_content (EnhancePrompt query) in
  let best := firstn 10 (rank (embed_model Query enhanced) (records_of i name)) in
  pc_indexes s !! name = Some i ->
  exists s',
    summary_btn fuel query s
    = (Return (generate_content
                 (SummaryPrompt (String.concat newline (map rec_text best)) enhanced)),
       s')
    /\ const_json s' = Some (JsonText (pointer_of name))
    /\ pc_indexes s' = pc_indexes s
    /\ (List.length best <= 10)%nat.
Proof.
  intros name enhanced best Hi.
  destruct (summary_btn_reuse fuel query i s Hi) as (s' & Hrun & Hconst & Hidx & _).
  exists s'. split; [exact Hrun|]. split; [exact Hconst|]. split; [exact Hidx|].
  unfold best. rewrite length_take. lia.
Qed.

End More.

(* ===================================================================== *)
(** * [get_logger]                                                         *)
(* ===================================================================== *)

Section LoggingProofs.
Import Logging.








Lemma get_logger_steps (logger_name filename : string) (w : world) :
  plain_file_name filename = true ->
  get_logger logger_name filename w
  = (if negb (hasHandlers (snd (prepared logger_name w)) (fst (prepared logger_name w)))
     then
       match open_log_file filename
               (update_logger (fst (prepared logger_name w)) (setLevel DEBUG)
                  (snd (prepared logger_name w))) with
       | inl e =>
           Raised e (update_logger (fst (prepared logger_name w)) (setLevel DEBUG)
                       (snd (prepared logger_name w)))
       | inr w' =>
           Returned (fst (prepared logger_name w))
             (update_logger (fst (prepared logger_name w))
                (addHandler (StreamHandler ERROR (Some log_format)))
                (update_logger (fst (prepared logger_name w))
                   (addHandler (FileHandler ("logs/" +:+ filename) DEBUG (Some log_format)))
                   w'))
       end
     else Returned (fst (prepared logger_name w)) (snd (prepared logger_name w))).
Proof.
  intros Hplain. unfold get_logger, prepared. rewrite Hplain. cbn [negb].
  destruct (getLogger logger_name _) as [r w1]. reflexivity.
Qed.




Lemma getLogger_again (name : string) (w : world) :
  getLogger name (snd (getLogger name w)) = getLogger name w.
Proof.
  unfold getLogger at 2 3.
  destruct (String.eqb name "" || String.eqb name "root")%bool eqn:Hroot.
  - cbn. unfold getLogger. rewrite Hroot. reflexivity.
  - destruct (loggerDict w !! name) as [c|] eqn:Hc; cbn.
    + unfold getLogger. rewrite Hroot, Hc. reflexivity.
    + unfold getLogger. rewrite Hroot. cbn. rewrite lookup_insert_eq. reflexivity.
Qed.





Lemma rfind_dot_lt (name : string) (stop k : nat) :
  rfind_dot name stop = Some k -> (k < stop)%nat.
Proof.
  induction stop as [|stop IH]; [discriminate|]. cbn.
  destruct (String.get stop name) as [c|].
  - destruct (Ascii.eqb c "."); [intros [= <-]; lia | intros E; apply IH in E; lia].
  - intros E. apply IH in E. lia.
Qed.

Lemma substring_prefix_length (s : string) :
  forall m, (m <= String.length s)%nat -> String.length (String.substring 0 m s) = m.
Proof.
  induction s as [|c s IH]; intros m Hm.
  - cbn in Hm. assert (m = 0)%nat as -> by lia. reflexivity.
  - destruct m as [|m]; [reflexivity|]. cbn. rewrite IH; [reflexivity|]. cbn in Hm. lia.
Qed.

Lemma fixup_parent_shorter (w : world) (name : string) (fuel : nat) :
  forall (i : option nat) (p : string),
  (forall k, i = Some k -> k < String.length name)%nat ->
  fixup_parent fuel w name i = Named p ->
  (String.length p < String.length name)%nat /\ is_Some (loggerDict w !! p).
Proof.
  induction fuel as [|fuel IH]; intros i p Hi Hp; [discriminate|].
  cbn in Hp. destruct i as [[|j]|]; try discriminate.
  specialize (Hi (S j) eq_refl).
  destruct (loggerDict w !! String.substring 0 (S j) name) as [c|] eqn:Hc.
  - injection Hp as <-. split; [|rewrite Hc; eauto].
    rewrite substring_prefix_length; lia.
  - apply (IH (rfind_dot name j) p); [|exact Hp].
    intros k Hk. apply rfind_dot_lt in Hk. lia.
Qed.

Lemma parent_of_shorter (w : world) (name p : string) :
  parent_of w name = Named p ->
  (String.length p < String.length name)%nat /\ is_Some (loggerDict w !! p).
Proof.
  unfold parent_of. apply fixup_parent_shorter.
  intros k Hk. apply rfind_dot_lt in Hk. exact Hk.
Qed.

Lemma hasHandlers_from_configured_root (w : world) :
  handlers (root w) <> [] ->
  (forall n c, loggerDict w !! n = Some c -> propagate c = true) ->
  forall (fuel : nat) (r : logger_ref),
  match r with
  | RootRef => (1 <= fuel)%nat
  | Named n => is_Some (loggerDict w !! n) /\ (String.length n + 2 <= fuel)%nat
  end ->
  hasHandlers_from fuel w r = true.
Proof.
  intros Hroot Hprop. induction fuel as [|fuel IH]; intros r Hr.
  - destruct r; [lia | destruct Hr; lia].
  - destruct r as [|n]; cbn [hasHandlers_from].
    + destruct (handlers (root w)); [congruence | reflexivity].
    + destruct Hr as [[c Hc] Hfuel]. rewrite Hc.
      destruct (handlers c); [|reflexivity].
      rewrite (Hprop n c Hc). apply IH.
      destruct (parent_of w n) as [|p] eqn:Hp; [lia|].
      apply parent_of_shorter in Hp as [Hlen Hsome]. split; [exact Hsome | lia].
Qed.

(** X15: in a process whose root logger already has a handler (and
    where no logger has switched propagation off), [get_logger] attaches
    no handler, leaves the logger's level alone and creates no log file:
    apart from making sure the directory [logs] exists and that the
    logger is registered, it changes nothing. *)
Theorem get_logger_defers_to_configured_root (logger_name filename : string)
    (w : world) :
  plain_file_name filename = true ->
  handlers (root w) <> [] ->
  (forall n c, loggerDict w !! n = Some c -> propagate c = true) ->
  exists r w',
    get_logger logger_name filename w = Returned r w'
    /\ find_logger w' r = Some (default new_logger (find_logger w r))
    /\ root w' = root w
    /\ (forall n c, loggerDict w !! n = Some c -> loggerDict w' !! n = Some c)
    /\ (forall path, path <> "logs" -> fs w' !! path = fs w !! path)
    /\ is_Some (fs w' !! "logs").
Proof.
  intros Hplain Hroot Hprop.
  set (w0 := match fs w !! "logs" with
             | Some _ => w
             | None => mkWorld (<["logs" := Dir]> (fs w)) (root w) (loggerDict w)
             end).
  assert (Hw0 : root w0 = root w /\ loggerDict w0 = loggerDict w).
  { unfold w0. destruct (fs w !! "logs"); auto. }
  destruct Hw0 as [Hroot0 Hdict0].
  assert (Hshape :
            exists r w',
              prepared logger_name w = (r, w')
              /\ find_logger w' r = Some (default new_logger (find_logger w r))
              /\ root w' = root w
              /\ (forall n c, loggerDict w !! n = Some c -> loggerDict w' !! n = Some c)
              /\ (forall n c, loggerDict w' !! n = Some c -> propagate c = true)
              /\ fs w' = fs w0).
  { unfold prepared. fold w0. unfold getLogger.
    destruct (String.eqb logger_name "" || String.eqb logger_name "root")%bool.
    - exists RootRef, w0. split; [reflexivity|]. cbn. rewrite Hroot0, Hdict0. auto 10.
    - destruct (loggerDict w0 !! logger_name) as [c|] eqn:Hc.
      + exists (Named logger_name), w0. split; [reflexivity|]. cbn.
        rewrite Hdict0 in *. rewrite Hc. cbn. auto 10.
      + eexists (Named logger_name), _. split; [reflexivity|]. cbn.
        rewrite Hdict0 in *. rewrite Hc, lookup_insert_eq. cbn.
        split; [reflexivity|]. split; [exact Hroot0|]. split; [|split; [|reflexivity]].
        * intros n c Hn. rewrite lookup_insert_ne; [exact Hn | congruence].
        * intros n c. destruct (decide (logger_name = n)) as [<- | Hne].
          -- rewrite lookup_insert_eq. intros [= <-]. reflexivity.
          -- rewrite lookup_insert_ne by exact Hne. apply Hprop. }
  destruct Hshape as (r & w' & Hprep & Hfind & Hroot' & Hkeep & Hprop' & Hfs).
  exists r, w'. split.
  { rewrite (get_logger_steps _ _ _ Hplain), Hprep. cbn [fst snd].
    replace (hasHandlers w' r) with true; [reflexivity|].
    symmetry. unfold hasHandlers.
    destruct r as [|n].
    - apply hasHandlers_from_configured_root; [congruence | exact Hprop' | lia].
    - apply hasHandlers_from_configured_root; [congruence | exact Hprop' |].
      split; [cbn in Hfind; rewrite Hfind; eauto | lia]. }
  split; [exact Hfind|]. split; [exact Hroot'|]. split; [exact Hkeep|].
  rewrite Hfs. unfold w0. split.
  - intros path Hpath. destruct (fs w !! "logs"); [reflexivity|].
    cbn. apply lookup_insert_ne. congruence.
  - destruct (fs w !! "logs") eqn:E; [rewrite E; eauto|].
    cbn. rewrite lookup_insert_eq. eauto.
Qed.




End LoggingProofs.

(* ===================================================================== *)
(** * The further properties at concrete inputs                            *)
(* ===================================================================== *)

Lemma embed_data_list_one_per_chunk_witness :
  (0 < List.length (demo_data 97))%nat
  /\ (List.length (demo_data 97) mod 96 <> 0)%nat
  /\ fst (embed_data_list (demo_data 97) (demo_state [] None))
     = Return (map (embed_model Passage) (map d_text (demo_data 97))).
Proof.
  split; [vm_compute; lia|].
  split; [vm_compute; discriminate|].
  destruct (embed_data_list_one_per_chunk (demo_data 97) (demo_state [] None))
    as (batches & Hrun & _).
  - vm_compute. lia.
  - right. vm_compute. discriminate.
  - rewrite Hrun. reflexivity.
Defined.

Lemma embed_data_list_respects_batch_limit_witness :
  demo_data 192 <> []
  /\ exists batches,
       snd (embed_data_list (demo_data 192) (demo_state [] None))
       = with_trace (embed_events batches) (demo_state [] None)
       /\ Forall (fun b => 0 < List.length b <= batch_limit)%nat batches.
Proof.
  split; [discriminate|].
  destruct (embed_data_list_respects_batch_limit (demo_data 192) (demo_state [] None))
    as (batches & rest & Hrun & Hall & _).
  - discriminate.
  - exists batches. rewrite Hrun. split; [reflexivity | exact Hall].
Defined.

Lemma create_index_postcondition_witness :
  exists s',
    create_index 5 (named_state "doc" ∅) = (Return tt, s')
    /\ pc_indexes s' !! "doc" = Some (@mkIndex demo_services 0 ∅).
Proof.
  destruct (create_index_postcondition 5 "doc" (named_state "doc" ∅))
    as (s' & new & Hrun & _ & _ & (i' & Hi' & Hready & Hns) & _).
  - reflexivity.
  - cbn. lia.
  - intros i. unfold named_state. cbn [pc_indexes]. rewrite lookup_empty. discriminate.
  - exists s'. split; [exact Hrun|]. rewrite Hi'. destruct i' as [p ns].
    cbn in Hready, Hns. unfold named_state in Hns. cbn [pc_indexes] in Hns.
    rewrite lookup_empty in Hns. subst. reflexivity.
Defined.







Lemma document_without_chunks_is_refused_witness :
  exists s',
    summary_btn 5 "cotton" (demo_state [] (Some (JsonText (pointer_of "old"))))
    = (Raise EmptyInputsError, s')
    /\ const_json s' = Some (JsonText (pointer_of "old")).
Proof.
  destruct (document_without_chunks_is_refused 5 "cotton"
              (demo_state [] (Some (JsonText (pointer_of "old")))))
    as (s' & Hrun & _ & Hconst & _).
  - reflexivity.
  - apply lookup_empty.
  - exists s'. split; [exact Hrun | exact Hconst].
Defined.


Lemma reuse_path_overwrites_any_pointer_witness :
  exists result s',
    summary_btn 0 "cotton" indexed_state = (Return result, s')
    /\ const_json indexed_state = Some (OtherText "{")
    /\ const_json s' = Some (JsonText (pointer_of (fingerprint (bytes_of_string "abc")))).
Proof.
  destruct (reuse_path_overwrites_any_pointer 0 "cotton" (@mkIndex demo_services 0 ∅)
              indexed_state)
    as (s' & Hrun & Hconst & _).
  - apply lookup_singleton_eq.
  - eexists _, s'. split; [exact Hrun|]. split; [reflexivity | exact Hconst].
Defined.


Lemma get_logger_defers_to_configured_root_witness :
  exists r w',
    Logging.get_logger "Streamlit" "app.log" Logging.configured_world
    = Logging.Returned r w'
    /\ Logging.fs w' !! "logs/app.log" = None.
Proof.
  destruct (get_logger_defers_to_configured_root "Streamlit" "app.log"
              Logging.configured_world)
    as (r & w' & Hrun & Hfind & _ & _ & Hfs & _).
  - reflexivity.
  - discriminate.
  - intros n c. cbn. rewrite lookup_empty. discriminate.
  - exists r, w'. split; [exact Hrun|].
    rewrite Hfs by discriminate. apply lookup_empty.
Defined.

